(** * cusim: [cuda_setup.py]

    A shallow embedding of the CUDA build helper of cusim: the version to
    flag tables ([get_cuda_arch], [get_cuda_sm_list], [get_cuda_compute]),
    the toolchain discovery ([find_in_path], [locate_cuda]) and the
    compiler dispatch ([_UnixCCompiler._compile], [CudaBuildExt.run]).

    Python [int] is [Z], [str] is [string] (byte strings: the model covers
    ASCII text), [os.environ] is a [gmap string string], the [cudaconfig]
    dict is an association list in insertion order, and code that logs,
    prints or raises runs in a small state and error monad. *)

From Stdlib Require Import ZArith List String Ascii Bool Lia.
From stdpp Require Import base gmap strings list.
Import ListNotations.

Local Open Scope string_scope.
Local Open Scope Z_scope.

(** ** Python strings *)

Module PyStr.

(** [s.startswith(p)] *)
Fixpoint startswith (p s : string) : bool :=
  match p, s with
  | EmptyString, _ => true
  | String a p', String b s' => if Ascii.eqb a b then startswith p' s' else false
  | String _ _, EmptyString => false
  end.

(** [sub in s] *)
Fixpoint contains (sub s : string) : bool :=
  startswith sub s ||
  match s with
  | EmptyString => false
  | String _ s' => contains sub s'
  end.

(** [s.split(sep)] for a one-character separator: the pieces between
    the separators, never an empty list. *)
Fixpoint split (sep : ascii) (s : string) : list string :=
  match s with
  | EmptyString => [EmptyString]
  | String c s' =>
      if Ascii.eqb c sep then EmptyString :: split sep s'
      else match split sep s' with
           | hd :: tl => String c hd :: tl
           | [] => [String c EmptyString]
           end
  end.

(** [s.rfind(c) + 1] for a one-character [c]: the length of the prefix
    that ends with the last [c], 0 when there is none. *)
Fixpoint rfind_succ (c : ascii) (s : string) : nat :=
  match s with
  | EmptyString => 0%nat
  | String a s' =>
      match rfind_succ c s' with
      | O => if Ascii.eqb a c then 1%nat else 0%nat
      | S n => S (S n)
      end
  end.

(** [s[:n]] and [s[n:]] *)
Fixpoint take (n : nat) (s : string) : string :=
  match n, s with
  | S n', String a s' => String a (take n' s')
  | _, _ => EmptyString
  end.

Fixpoint drop (n : nat) (s : string) : string :=
  match n, s with
  | S n', String _ s' => drop n' s'
  | _, _ => s
  end.

(** [s.endswith(c)] for a one-character [c] *)
Fixpoint endswith_char (c : ascii) (s : string) : bool :=
  match s with
  | EmptyString => false
  | String a EmptyString => Ascii.eqb a c
  | String _ s' => endswith_char c s'
  end.

(** [s.rstrip(c)] for a one-character [c] *)
Fixpoint rstrip_char (c : ascii) (s : string) : string :=
  match s with
  | EmptyString => EmptyString
  | String a s' =>
      match rstrip_char c s' with
      | EmptyString => if Ascii.eqb a c then EmptyString else String a EmptyString
      | r => String a r
      end
  end.

(** [s == c * len(s)] *)
Fixpoint all_char (c : ascii) (s : string) : bool :=
  match s with
  | EmptyString => true
  | String a s' => Ascii.eqb a c && all_char c s'
  end.

(** The ASCII characters [str.isspace] accepts, the ones [int] skips
    at both ends of its argument. *)
Definition is_space (c : ascii) : bool :=
  let n := nat_of_ascii c in
  ((9 <=? n)%nat && (n <=? 13)%nat) || ((28 <=? n)%nat && (n <=? 32)%nat).

Definition is_digit (c : ascii) : bool :=
  let n := nat_of_ascii c in (48 <=? n)%nat && (n <=? 57)%nat.

Definition digit_val (c : ascii) : Z := Z.of_nat (nat_of_ascii c) - 48.

Fixpoint lstrip_space (s : string) : string :=
  match s with
  | String a s' => if is_space a then lstrip_space s' else s
  | EmptyString => EmptyString
  end.

Fixpoint rstrip_space (s : string) : string :=
  match s with
  | EmptyString => EmptyString
  | String a s' =>
      match rstrip_space s' with
      | EmptyString => if is_space a then EmptyString else String a EmptyString
      | r => String a r
      end
  end.

(** The digits of a decimal literal: single underscores are allowed
    between two digits, nowhere else. *)
Fixpoint int_digits (s : string) (acc : Z) (after_digit : bool) : option Z :=
  match s with
  | EmptyString => if after_digit then Some acc else None
  | String c s' =>
      if is_digit c then int_digits s' (10 * acc + digit_val c) true
      else if Ascii.eqb c "_" then
        if after_digit then int_digits s' acc false else None
      else None
  end.

(** [int(s)]: [None] stands for [ValueError]. *)
Definition int (s : string) : option Z :=
  match rstrip_space (lstrip_space s) with
  | EmptyString => None
  | String c d =>
      if Ascii.eqb c "-" then option_map Z.opp (int_digits d 0 false)
      else if Ascii.eqb c "+" then int_digits d 0 false
      else int_digits (String c d) 0 false
  end.

(** Whether a decimal digit occurs in [s]. *)
Fixpoint has_digit (s : string) : bool :=
  match s with
  | EmptyString => false
  | String c s' => is_digit c || has_digit s'
  end.

End PyStr.

(** ** Exceptions, and the monad of code that has a state and may raise *)

Inductive exn : Type :=
| KeyError (key : string)
| IndexError
| ValueError
| AssertionError
| NameError (name : string)
| TypeError
| DistutilsPlatformError
| OtherError (what : string).

Inductive outcome (A : Type) : Type :=
| Return (a : A)
| Raise (e : exn).
Arguments Return {A} a.
Arguments Raise {A} e.

Definition M (S A : Type) : Type := S -> S * outcome A.

Definition ret {S A} (a : A) : M S A := fun s => (s, Return a).
Definition raise {S A} (e : exn) : M S A := fun s => (s, Raise e).
Definition bind {S A B} (m : M S A) (k : A -> M S B) : M S B :=
  fun s => match m s with
           | (s', Return a) => k a s'
           | (s', Raise e) => (s', Raise e)
           end.
Definition modify {S} (f : S -> S) : M S unit := fun s => (f s, Return tt).

(** [try: body finally: cleanup], for a cleanup that does not raise. *)
Definition try_finally {S A} (body : M S A) (cleanup : S -> S) : M S A :=
  fun s => let '(s', r) := body s in (cleanup s', r).

Notation "x <- m ;; k" := (bind m (fun x => k))
  (at level 100, m at next level, right associativity).
Notation "m ;;; k" := (bind m (fun _ => k))
  (at level 100, right associativity).

(** ** ArchitectureResolver *)

Abbreviation environ := (gmap string string).

(** get_cuda_sm_list *)
Definition get_cuda_sm_list (cuda_ver : Z) (env : environ) : list string :=
  match env !! "CUDA_SM_LIST" with
  | Some v => PyStr.split "," v
  | None =>
      let sm_list := ["30"; "52"; "60"; "61"; "70"; "75"; "80"; "86"] in
      let filter_list :=
        (if cuda_ver >=? 110 then
           ["30"] ++ (if cuda_ver =? 110 then ["86"] else [])
         else
           ["80"; "86"]
             ++ (if cuda_ver <? 100 then ["75"] else [])
             ++ (if cuda_ver <? 90 then ["70"] else [])
             ++ (if cuda_ver <? 80 then ["60"; "61"] else []))%list
      in
      List.filter (fun sm => negb (existsb (String.eqb sm) filter_list)) sm_list
  end.

(** get_cuda_compute *)
Definition get_cuda_compute (cuda_ver : Z) (env : environ) : string :=
  match env !! "CUDA_COMPUTE" with
  | Some v => v
  | None =>
      if (70 <=? cuda_ver) && (cuda_ver <? 80) then "52"
      else if (80 <=? cuda_ver) && (cuda_ver <? 90) then "61"
      else if (90 <=? cuda_ver) && (cuda_ver <? 100) then "70"
      else if (100 <=? cuda_ver) && (cuda_ver <? 110) then "75"
      else if cuda_ver =? 110 then "80"
      else if (111 <=? cuda_ver) && (cuda_ver <? 115) then "86"
      else if (115 <=? cuda_ver) && (cuda_ver <? 120) then "89"
      else if (120 <=? cuda_ver) && (cuda_ver <=? 128) then "90"
      else "90"
  end.

(** get_cuda_arch *)
Definition get_cuda_arch (cuda_ver : Z) (env : environ) : string :=
  match env !! "CUDA_ARCH" with
  | Some v => v
  | None =>
      if (70 <=? cuda_ver) && (cuda_ver <? 92) then "30"
      else if (92 <=? cuda_ver) && (cuda_ver <? 110) then "50"
      else if cuda_ver =? 110 then "52"
      else if (111 <=? cuda_ver) && (cuda_ver <? 120) then "80"
      else if (120 <=? cuda_ver) && (cuda_ver <=? 128) then "90"
      else "90"
  end.

(** ** The host: [os.path], [os.environ], [sys.platform], the file system *)

(** The functions of [os.path] that only look at the text of a path.
    Which module [os.path] is depends on the platform. *)
Record OsPath : Type := {
  pathsep : ascii;
  path_join : string -> list string -> string;
  path_basename : string -> string;
  path_dirname : string -> string;
  path_splitext : string -> string * string
}.

Module posixpath.

Definition join (a : string) (p : list string) : string :=
  fold_left
    (fun path b =>
       if PyStr.startswith "/" b then b
       else if String.eqb path "" || PyStr.endswith_char "/" path
            then path +:+ b
            else path +:+ "/" +:+ b)
    p a.

Definition basename (p : string) : string :=
  PyStr.drop (PyStr.rfind_succ "/" p) p.

Definition dirname (p : string) : string :=
  let head := PyStr.take (PyStr.rfind_succ "/" p) p in
  if negb (String.eqb head "") && negb (PyStr.all_char "/" head)
  then PyStr.rstrip_char "/" head
  else head.

(** [genericpath._splitext(p, '/', None, '.')]: the extension starts at
    the last dot of the last component, unless that component has only
    dots before it. *)
Definition splitext (p : string) : string * string :=
  let filenameIndex := PyStr.rfind_succ "/" p in
  let dot_succ := PyStr.rfind_succ "." p in
  let dotIndex := Nat.pred dot_succ in
  if (filenameIndex <? dot_succ)%nat
     && negb (PyStr.all_char "."
                (PyStr.take (dotIndex - filenameIndex) (PyStr.drop filenameIndex p)))
  then (PyStr.take dotIndex p, PyStr.drop dotIndex p)
  else (p, "").

Definition os_path : OsPath :=
  {| pathsep := ":"; path_join := join; path_basename := basename;
     path_dirname := dirname; path_splitext := splitext |}.

End posixpath.

Record Host : Type := {
  os_environ : gmap string string;
  sys_platform : string;
  os_path : OsPath;
  path_exists : string -> bool;      (* os.path.exists *)
  path_abspath : string -> string;   (* os.path.abspath *)
  path_realpath : string -> string   (* os.path.realpath *)
}.

(** What [locate_cuda] writes, in the order it writes it. *)
Inductive event : Type :=
| warn_nvcc_not_found
    (* logging.warning('The nvcc binary could not be located in your $PATH. ...') *)
| warn_path_missing (k val : string)
    (* logging.warning('The CUDA %s path could not be located in %s', k, val) *)
| print_cuda_ver (major minor : Z)
    (* print(f"cuda_ver: {major}.{minor}") *)
| print_post_args (post_args : list string).
    (* print(f"nvcc post args: {post_args}") *)

Definition emit (e : event) : M (list event) unit :=
  modify (fun log => (log ++ [e])%list).

Definition lift {S A} (r : outcome A) : M S A := fun s => (s, r).

(** ** ToolchainLocator *)

Fixpoint find_in_path_loop (h : Host) (name : string) (dirs : list string)
  : option string :=
  match dirs with
  | [] => None
  | _dir :: rest =>
      let binpath := path_join (os_path h) _dir [name] in
      if path_exists h binpath then Some (path_abspath h binpath)
      else find_in_path_loop h name rest
  end.

(** find_in_path *)
Definition find_in_path (h : Host) (name path : string) : option string :=
  find_in_path_loop h name (PyStr.split (pathsep (os_path h)) path).

(** The dict [cudaconfig] while it holds paths only: the items in
    insertion order. Assigning to a key that is present keeps its place. *)
Definition dict_set (k v : string) (d : list (string * string))
  : list (string * string) :=
  if existsb (fun kv => String.eqb (fst kv) k) d
  then map (fun kv => if String.eqb (fst kv) k then (k, v) else kv) d
  else (d ++ [(k, v)])%list.

Fixpoint dict_get (k : string) (d : list (string * string)) : option string :=
  match d with
  | [] => None
  | (k', v) :: rest => if String.eqb k' k then Some v else dict_get k rest
  end.

(** The value [locate_cuda] returns when it returns a dict: the path
    items, and the list under the key ['post_args']. *)
Record cudaconfig : Type := {
  paths : list (string * string);
  post_args : list string
}.

(** locate_cuda, lines 113-115 *)
Definition nvcc_bin (h : Host) : string :=
  if PyStr.startswith "win" (sys_platform h) then "nvcc.exe" else "nvcc".

(** locate_cuda, lines 119-125: the first variable that is set wins. *)
Fixpoint home_from_env (h : Host) (env_names : list string)
  : option (string * string) :=
  match env_names with
  | [] => None
  | env_name :: rest =>
      match os_environ h !! env_name with
      | None => home_from_env h rest
      | Some home => Some (home, path_join (os_path h) home ["bin"; nvcc_bin h])
      end
  end.

(** locate_cuda, lines 118-134: [Some (home, nvcc)], or [None] where the
    function returns [None] after its warning. *)
Definition discover_home (h : Host) : M (list event) (option (string * string)) :=
  match home_from_env h ["CUDA_PATH"; "CUDAHOME"; "CUDA_HOME"] with
  | Some found => ret (Some found)
  | None =>
      match os_environ h !! "PATH" with
      | None => raise (KeyError "PATH")
      | Some path =>
          match find_in_path h (nvcc_bin h) path with
          | None => emit warn_nvcc_not_found ;;; ret None
          | Some nvcc =>
              ret (Some (path_dirname (os_path h) (path_dirname (os_path h) nvcc), nvcc))
          end
      end
  end.

(** locate_cuda, lines 139-143: [name] is
    [os.path.basename(os.path.realpath(home))]. The bare [except] catches
    the [IndexError] of [split("-")[1]]; nothing catches what the
    indexing and the conversions of line 143 raise. *)
Definition parse_cuda_ver (name : string) : outcome (Z * Z) :=
  let cuda_ver :=
    match nth_error (PyStr.split "-" name) 1 with
    | Some seg => PyStr.split "." seg
    | None => PyStr.split "." name
    end in
  match nth_error cuda_ver 0 with
  | None => Raise IndexError
  | Some c0 =>
      match PyStr.int c0 with
      | None => Raise ValueError
      | Some major =>
          match nth_error cuda_ver 1 with
          | None => Raise IndexError
          | Some c1 =>
              match PyStr.int c1 with
              | None => Raise ValueError
              | Some minor => Return (major, minor)
              end
          end
      end
  end.

(** locate_cuda, lines 150-153 *)
Definition assemble_post_args (arch : string) (sm_list : list string)
    (compute : string) : list string :=
  (["-arch=sm_" +:+ arch]
   ++ map (fun sm => "-gencode=arch=compute_" +:+ sm +:+ ",code=sm_" +:+ sm) sm_list
   ++ ["-gencode=arch=compute_" +:+ compute +:+ ",code=compute_" +:+ compute;
       "--ptxas-options=-v"; "-O2"])%list.

(** locate_cuda, lines 155-156 *)
Definition drop_52 (HALF_PRECISION : bool) (post_args : list string)
  : list string :=
  if HALF_PRECISION
  then List.filter (fun flag => negb (PyStr.contains "52" flag)) post_args
  else post_args.

(** locate_cuda, lines 158-167: what is appended to [post_args] *)
Definition platform_args (HALF_PRECISION : bool) (h : Host) : list string :=
  if String.eqb (sys_platform h) "win32" then
    (["-Xcompiler"; "/MD"; "-std=c++14"; "-Xcompiler"; "/openmp"]
     ++ (if HALF_PRECISION then ["-Xcompiler"; "/D HALF_PRECISION"] else []))%list
  else
    (["-c"; "--compiler-options"; "'-fPIC'"; "--compiler-options"; "'-std=c++14'"]
     ++ (if HALF_PRECISION
         then ["--compiler-options"; "'-D HALF_PRECISION'"] else []))%list.

(** locate_cuda, lines 135-138 and 158-159: the path items *)
Definition config_paths (h : Host) (home nvcc : string) : list (string * string) :=
  let cudaconfig :=
    [("home", home); ("nvcc", nvcc);
     ("include", path_join (os_path h) home ["include"]);
     ("lib64", path_join (os_path h) home ["lib64"])] in
  if String.eqb (sys_platform h) "win32"
  then dict_set "lib64" (path_join (os_path h) home ["lib"; "x64"]) cudaconfig
  else cudaconfig.

(** locate_cuda, lines 168-171: [true] when the loop runs to its end,
    [false] where the function returns [None] after its warning. *)
Fixpoint validate (h : Host) (items : list (string * string))
  : M (list event) bool :=
  match items with
  | [] => ret true
  | (k, val) :: rest =>
      if path_exists h val then validate h rest
      else (emit (warn_path_missing k val) ;;; ret false)
  end.

(** locate_cuda. [HALF_PRECISION] is the module's global. *)
Definition locate_cuda (HALF_PRECISION : bool) (h : Host)
  : M (list event) (option cudaconfig) :=
  found <- discover_home h ;;
  match found with
  | None => ret None
  | Some (home, nvcc) =>
      ver <- lift (parse_cuda_ver
                     (path_basename (os_path h) (path_realpath h home))) ;;
      let '(major, minor) := ver in
      let cuda_ver := 10 * major + minor in
      if negb (cuda_ver >=? 70) then raise AssertionError
      else
        emit (print_cuda_ver major minor) ;;;
        let arch := get_cuda_arch cuda_ver (os_environ h) in
        let sm_list := get_cuda_sm_list cuda_ver (os_environ h) in
        let compute := get_cuda_compute cuda_ver (os_environ h) in
        let assembled := assemble_post_args arch sm_list compute in
        emit (print_post_args assembled) ;;;
        let final_args :=
          (drop_52 HALF_PRECISION assembled
             ++ platform_args HALF_PRECISION h)%list in
        ok <- validate h (config_paths h home nvcc) ;;
        if ok
        then ret (Some {| paths := config_paths h home nvcc;
                          post_args := final_args |})
        else ret None
  end.

(** The first item of the dict whose path is missing. *)
Definition first_missing (h : Host) (items : list (string * string))
  : option (string * string) :=
  List.find (fun kv => negb (path_exists h (snd kv))) items.

(** The flags that the run prints, and the dict that it returns when
    every path exists. *)
Definition assembled_for (h : Host) (cuda_ver : Z) : list string :=
  assemble_post_args (get_cuda_arch cuda_ver (os_environ h))
    (get_cuda_sm_list cuda_ver (os_environ h))
    (get_cuda_compute cuda_ver (os_environ h)).

Definition config_for (HALF_PRECISION : bool) (h : Host) (home nvcc : string)
    (cuda_ver : Z) : cudaconfig :=
  {| paths := config_paths h home nvcc;
     post_args := (drop_52 HALF_PRECISION (assembled_for h cuda_ver)
                     ++ platform_args HALF_PRECISION h)%list |}.

(** The two directories that [locate_cuda] requires under the home. *)
Definition include_dir (h : Host) (home : string) : string :=
  path_join (os_path h) home ["include"].

Definition lib_dir (h : Host) (home : string) : string :=
  if String.eqb (sys_platform h) "win32"
  then path_join (os_path h) home ["lib"; "x64"]
  else path_join (os_path h) home ["lib64"].

(** ** CompilerDispatcher *)

(** A compiler object: the attribute [compiler_so] (the command of the
    compile step) and the rest of its state. *)
Record compiler (A : Type) : Type := {
  compiler_so : list string;
  attrs : A
}.
Arguments compiler_so {A} _.
Arguments attrs {A} _.

Definition set_compiler_so {A} (v : list string) (self : compiler A) : compiler A :=
  {| compiler_so := v; attrs := attrs self |}.

(** [CUDA[key]] for the module's global [CUDA = locate_cuda()] *)
Definition CUDA_nvcc (CUDA : option cudaconfig) : outcome string :=
  match CUDA with
  | None => Raise TypeError
  | Some cfg =>
      match dict_get "nvcc" (paths cfg) with
      | Some v => Return v
      | None => Raise (KeyError "nvcc")
      end
  end.

Definition CUDA_post_args (CUDA : option cudaconfig) : outcome (list string) :=
  match CUDA with
  | None => Raise TypeError
  | Some cfg => Return (post_args cfg)
  end.

Module _UnixCCompiler.
Section Methods.

Context {A : Type}.
(** the module's global [CUDA], and the host for [os.path.splitext] *)
Variable CUDA : option cudaconfig.
Variable h : Host.
(** [distutils.util.split_quoted], which [set_executable] applies to a
    command given as one string *)
Variable split_quoted : string -> outcome (list string).
(** [unixccompiler.UnixCCompiler._compile(self, obj, src, ext, cc_args,
    extra_postargs, pp_opts)] *)
Variable super_compile :
  string -> string -> string -> list string -> list string -> list string ->
  M (compiler A) unit.

(** [self.set_executable('compiler_so', value)] for a string [value] *)
Definition set_executable_compiler_so (value : string) : M (compiler A) unit :=
  fun self =>
    match split_quoted value with
    | Return cmd => (set_compiler_so cmd self, Return tt)
    | Raise e => (self, Raise e)
    end.

(** _UnixCCompiler._compile *)
Definition _compile (obj src ext : string)
    (cc_args extra_postargs pp_opts : list string) : M (compiler A) unit :=
  if negb (String.eqb (snd (path_splitext (os_path h) src)) ".cu") then
    super_compile obj src ext cc_args extra_postargs pp_opts
  else
    fun self =>
      let _compiler_so := compiler_so self in
      try_finally
        (nvcc_path <- lift (CUDA_nvcc CUDA) ;;
         post_args <- lift (CUDA_post_args CUDA) ;;
         set_executable_compiler_so nvcc_path ;;;
         super_compile obj src ext cc_args post_args pp_opts)
        (set_compiler_so _compiler_so)
        self.

End Methods.
End _UnixCCompiler.

Module CudaBuildExt.

(** The compiler classes bound to a name of the module: the only
    [class] statement for a compiler is that of [_UnixCCompiler]. *)
Inductive compiler_class : Type := UnixCCompiler_cu.

Definition module_globals : list (string * compiler_class) :=
  [("_UnixCCompiler", UnixCCompiler_cu)].

Fixpoint load_global (name : string) (globals : list (string * compiler_class))
  : outcome compiler_class :=
  match globals with
  | [] => Raise (NameError name)
  | (n, c) :: rest =>
      if String.eqb n name then Return c else load_global name rest
  end.

Section Run.

(** [V]: the values of keyword arguments; [C]: what the original
    [ccompiler.new_compiler] returns. *)
Context {V C : Type}.
Variable CUDA : option cudaconfig.
Variable sys_platform : string.

(** What the hooked [new_compiler] returns: the original's compiler,
    or [CCompiler(None, dry_run, force)]. *)
Inductive new_compiler_result : Type :=
| original (c : C)
| constructed (CCompiler : compiler_class) (dry_run force : V).

Definition kwarg (kwargs : gmap string V) (key : string) : outcome V :=
  match kwargs !! key with
  | Some v => Return v
  | None => Raise (KeyError key)
  end.

(** [_wrap_new_compiler], given what its call of [func] does and the
    keyword arguments of the call. *)
Definition _wrap_new_compiler (func_result : outcome C) (kwargs : gmap string V)
  : outcome new_compiler_result :=
  match func_result with
  | Return c => Return (original c)
  | Raise DistutilsPlatformError =>
      match (if negb (String.eqb sys_platform "win32")
             then load_global "_UnixCCompiler" module_globals
             else load_global "_MSVCCompiler" module_globals) with
      | Raise e => Raise e
      | Return CCompiler =>
          match kwarg kwargs "dry_run" with
          | Raise e => Raise e
          | Return dry_run =>
              match kwarg kwargs "force" with
              | Raise e => Raise e
              | Return force => Return (constructed CCompiler dry_run force)
              end
          end
      end
  | Raise e => Raise e
  end.

(** What [run] changes before it calls [setuptools_build_ext.run]:
    whether [ccompiler.new_compiler] is the hooked one, and the
    command's [compiler] option. *)
Record build : Type := {
  hooked : bool;
  compiler_option : option string
}.

(** CudaBuildExt.run, lines 207-223 *)
Definition run (self : build) : build :=
  match CUDA with
  | Some _ => {| hooked := true; compiler_option := Some "nvidia" |}
  | None => self
  end.

(** A call of [ccompiler.new_compiler] as [run] left it *)
Definition new_compiler (self : build) (func_result : outcome C)
    (kwargs : gmap string V) : outcome new_compiler_result :=
  if hooked self then _wrap_new_compiler func_result kwargs
  else match func_result with
       | Return c => Return (original c)
       | Raise e => Raise e
       end.

End Run.
End CudaBuildExt.

(** ** Concrete hosts and collaborators, to run the model on *)

(** A POSIX host whose file system holds the paths of [files], without
    symbolic links and with absolute paths throughout. *)
Definition posix_host (env : list (string * string)) (files : list string) : Host :=
  {| os_environ := list_to_map env;
     sys_platform := "linux";
     os_path := posixpath.os_path;
     path_exists := fun p => existsb (String.eqb p) files;
     path_abspath := fun p => p;
     path_realpath := fun p => p |}.

(** The compile step of [distutils]: it spawns
    [compiler_so + cc_args + [src, '-o', obj] + extra_postargs]; here the
    spawned commands are recorded in the object's state. *)
Definition spawn_compile (obj src ext : string)
    (cc_args extra_postargs pp_opts : list string)
  : M (compiler (list (list string))) unit :=
  fun self =>
    ({| compiler_so := compiler_so self;
        attrs := (attrs self
                    ++ [compiler_so self ++ cc_args ++ [src; "-o"; obj]
                          ++ extra_postargs])%list |},
     Return tt).

(** A compile step that fails, and leaves another command behind. *)
Definition failing_compile (obj src ext : string)
    (cc_args extra_postargs pp_opts : list string)
  : M (compiler (list (list string))) unit :=
  fun self => (set_compiler_so ["false"] self, Raise (OtherError "CompileError")).

(** [split_quoted] on a command without blanks or quotes *)
Definition one_word (s : string) : outcome (list string) := Return [s].

Definition cuda_112 : cudaconfig :=
  {| paths := [("home", "/usr/local/cuda-11.2");
               ("nvcc", "/usr/local/cuda-11.2/bin/nvcc");
               ("include", "/usr/local/cuda-11.2/include");
               ("lib64", "/usr/local/cuda-11.2/lib64")];
     post_args := ["-arch=sm_80"; "-O2"; "-c"] |}.

(** Three installations: a complete CUDA 11.2, a CUDA 11.0 without its
    [include] directory, and a CUDA home whose name has no version. *)
Definition host_cuda_112 : Host :=
  posix_host [("CUDA_HOME", "/usr/local/cuda-11.2")]
    ["/usr/local/cuda-11.2"; "/usr/local/cuda-11.2/bin/nvcc";
     "/usr/local/cuda-11.2/include"; "/usr/local/cuda-11.2/lib64"].

Definition host_cuda_110 : Host :=
  posix_host [("CUDA_PATH", "/usr/local/cuda-11.0")]
    ["/usr/local/cuda-11.0"; "/usr/local/cuda-11.0/bin/nvcc";
     "/usr/local/cuda-11.0/include"; "/usr/local/cuda-11.0/lib64"].

Definition host_cuda_110_no_include : Host :=
  posix_host [("PATH", "/usr/bin:/opt/cuda-11.0/bin")]
    ["/opt/cuda-11.0"; "/opt/cuda-11.0/bin/nvcc"; "/opt/cuda-11.0/lib64"].

Definition host_cuda_unversioned : Host :=
  posix_host [("CUDA_HOME", "/usr/local/cuda")]
    ["/usr/local/cuda"; "/usr/local/cuda/bin/nvcc";
     "/usr/local/cuda/include"; "/usr/local/cuda/lib64"].



Definition host_cuda_major_only : Host :=
  posix_host [("CUDA_HOME", "/usr/local/cuda-11")]
    ["/usr/local/cuda-11"; "/usr/local/cuda-11/bin/nvcc";
     "/usr/local/cuda-11/include"; "/usr/local/cuda-11/lib64"].

(** The exclusion set of the sm list in the words of the specification,
    as a set, to compare [get_cuda_sm_list] with. *)
Definition spec_exclusion (version : Z) : gset string :=
  if decide (110 <= version) then
    {["30"]} ∪ (if decide (version = 110) then {["86"]} else ∅)
  else
    {["80"; "86"]}
      ∪ (if decide (version < 100) then {["75"]} else ∅)
      ∪ (if decide (version < 90) then {["70"]} else ∅)
      ∪ (if decide (version < 80) then {["60"; "61"]} else ∅).

Definition spec_base_list : list string :=
  ["30"; "52"; "60"; "61"; "70"; "75"; "80"; "86"].

(** ** The module's last statements *)

(** The two classes that [BUILDEXT] can name. *)
Inductive build_ext_class : Type :=
| BUILDEXT_CudaBuildExt
| BUILDEXT_setuptools_build_ext.

(** The truth value of the dict that [locate_cuda] returns: a dict is
    true when it has an item; this one has the path items and
    ['post_args']. *)
Definition dict_truth (cfg : cudaconfig) : bool :=
  negb (Nat.eqb (List.length (paths cfg) + 1) 0).

(** Lines 228-230: [CUDA = locate_cuda()], [assert CUDA is not None],
    [BUILDEXT = CudaBuildExt if CUDA else setuptools_build_ext]. The
    result is the pair of [CUDA] and [BUILDEXT]. *)
Definition module_init (HALF_PRECISION : bool) (h : Host)
  : M (list event) (cudaconfig * build_ext_class) :=
  CUDA <- locate_cuda HALF_PRECISION h ;;
  match CUDA with
  | None => raise AssertionError
  | Some cfg =>
      ret (cfg, if dict_truth cfg then BUILDEXT_CudaBuildExt
                else BUILDEXT_setuptools_build_ext)
  end.

(** * Properties *)

(** ** ArchitectureResolver *)

(** Settle every comparison of the goal that the hypotheses decide. *)
Ltac case_cmp :=
  repeat match goal with
    | |- context [(?a >=? ?b)%Z] => rewrite (Z.geb_leb a b)
    | |- context [(?a <=? ?b)%Z] =>
        first [ rewrite (proj2 (Z.leb_le a b)) by lia
              | rewrite (proj2 (Z.leb_gt a b)) by lia ]
    | |- context [(?a <? ?b)%Z] =>
        first [ rewrite (proj2 (Z.ltb_lt a b)) by lia
              | rewrite (proj2 (Z.ltb_ge a b)) by lia ]
    | |- context [(?a =? ?b)%Z] =>
        first [ rewrite (proj2 (Z.eqb_eq a b)) by lia
              | rewrite (proj2 (Z.eqb_neq a b)) by lia ]
    end; simpl.

Ltac split_all := repeat match goal with |- _ /\ _ => split end.

(** C1: for every integer version, with the override variable unset,
    [get_cuda_arch] returns the tabulated flag ([70,92) -> 30,
    [92,110) -> 50, 110 -> 52, [111,120) -> 80, [120,128] -> 90, else 90)
    and [get_cuda_compute] the tabulated flag ([70,80) -> 52, [80,90) -> 61,
    [90,100) -> 70, [100,110) -> 75, 110 -> 80, [111,115) -> 86,
    [115,120) -> 89, [120,128] -> 90, else 90). *)
Theorem resolver_tables (cuda_ver : Z) (env : environ) :
  (env !! "CUDA_ARCH" = None ->
     (70 <= cuda_ver < 92 -> get_cuda_arch cuda_ver env = "30")
     /\ (92 <= cuda_ver < 110 -> get_cuda_arch cuda_ver env = "50")
     /\ (cuda_ver = 110 -> get_cuda_arch cuda_ver env = "52")
     /\ (111 <= cuda_ver < 120 -> get_cuda_arch cuda_ver env = "80")
     /\ (120 <= cuda_ver <= 128 -> get_cuda_arch cuda_ver env = "90")
     /\ (cuda_ver < 70 \/ 128 < cuda_ver -> get_cuda_arch cuda_ver env = "90"))
  /\ (env !! "CUDA_COMPUTE" = None ->
     (70 <= cuda_ver < 80 -> get_cuda_compute cuda_ver env = "52")
     /\ (80 <= cuda_ver < 90 -> get_cuda_compute cuda_ver env = "61")
     /\ (90 <= cuda_ver < 100 -> get_cuda_compute cuda_ver env = "70")
     /\ (100 <= cuda_ver < 110 -> get_cuda_compute cuda_ver env = "75")
     /\ (cuda_ver = 110 -> get_cuda_compute cuda_ver env = "80")
     /\ (111 <= cuda_ver < 115 -> get_cuda_compute cuda_ver env = "86")
     /\ (115 <= cuda_ver < 120 -> get_cuda_compute cuda_ver env = "89")
     /\ (120 <= cuda_ver <= 128 -> get_cuda_compute cuda_ver env = "90")
     /\ (cuda_ver < 70 \/ 128 < cuda_ver -> get_cuda_compute cuda_ver env = "90")).
Proof.
  split; intros Henv.
  - unfold get_cuda_arch; rewrite Henv.
    split_all; intros Hv; try subst cuda_ver; try destruct Hv as [Hv | Hv];
      case_cmp; reflexivity.
  - unfold get_cuda_compute; rewrite Henv.
    split_all; intros Hv; try subst cuda_ver; try destruct Hv as [Hv | Hv];
      case_cmp; reflexivity.
Qed.

Lemma resolver_tables_witness :
  get_cuda_arch 110 ∅ = "52" /\ get_cuda_compute 110 ∅ = "80"
  /\ get_cuda_arch 91 ∅ = "30" /\ get_cuda_compute 114 ∅ = "86".
Proof.
  destruct (resolver_tables 110 ∅) as [Ha Hc].
  destruct (Ha eq_refl) as (_ & _ & Ha110 & _).
  destruct (Hc eq_refl) as (_ & _ & _ & _ & Hc110 & _).
  destruct (resolver_tables 91 ∅) as [Ha' _].
  destruct (Ha' eq_refl) as (Ha91 & _).
  destruct (resolver_tables 114 ∅) as [_ Hc'].
  destruct (Hc' eq_refl) as (_ & _ & _ & _ & _ & Hc114 & _).
  split_all.
  - apply Ha110; reflexivity.
  - apply Hc110; reflexivity.
  - apply Ha91; lia.
  - apply Hc114; lia.
Defined.

(** The computed list on each range of versions. *)
Lemma get_cuda_sm_list_ranges (cuda_ver : Z) (env : environ) :
  env !! "CUDA_SM_LIST" = None ->
  (111 <= cuda_ver ->
     get_cuda_sm_list cuda_ver env = ["52"; "60"; "61"; "70"; "75"; "80"; "86"])
  /\ (cuda_ver = 110 ->
     get_cuda_sm_list cuda_ver env = ["52"; "60"; "61"; "70"; "75"; "80"])
  /\ (100 <= cuda_ver < 110 ->
     get_cuda_sm_list cuda_ver env = ["30"; "52"; "60"; "61"; "70"; "75"])
  /\ (90 <= cuda_ver < 100 ->
     get_cuda_sm_list cuda_ver env = ["30"; "52"; "60"; "61"; "70"])
  /\ (80 <= cuda_ver < 90 ->
     get_cuda_sm_list cuda_ver env = ["30"; "52"; "60"; "61"])
  /\ (cuda_ver < 80 -> get_cuda_sm_list cuda_ver env = ["30"; "52"]).
Proof.
  intros Henv. unfold get_cuda_sm_list. rewrite Henv.
  split_all; intros Hv; try subst cuda_ver; case_cmp; reflexivity.
Qed.

(** C2: with the override variable unset, the computed sm list is the
    base list without the members of the exclusion set of the
    specification, in the order of the base list; for version 110 it is
    52, 60, 61, 70, 75, 80. *)
Theorem sm_list_is_base_minus_exclusion (cuda_ver : Z) (env : environ) :
  env !! "CUDA_SM_LIST" = None ->
  get_cuda_sm_list cuda_ver env
    = List.filter (fun sm => bool_decide (sm ∉ spec_exclusion cuda_ver))
        spec_base_list
  /\ get_cuda_sm_list 110 env = ["52"; "60"; "61"; "70"; "75"; "80"].
Proof.
  intros Henv.
  destruct (get_cuda_sm_list_ranges cuda_ver env Henv)
    as (H111 & H110 & H100 & H90 & H80 & H70).
  split.
  - unfold spec_exclusion.
    destruct (Z_lt_le_dec cuda_ver 80); [rewrite H70 by lia |].
    2: destruct (Z_lt_le_dec cuda_ver 90); [rewrite H80 by lia |].
    3: destruct (Z_lt_le_dec cuda_ver 100); [rewrite H90 by lia |].
    4: destruct (Z_lt_le_dec cuda_ver 110); [rewrite H100 by lia |].
    5: destruct (Z.eq_dec cuda_ver 110); [rewrite H110 by lia | rewrite H111 by lia].
    all: repeat case_decide; try lia; vm_compute; reflexivity.
  - apply (get_cuda_sm_list_ranges 110 env Henv). reflexivity.
Qed.

Lemma sm_list_is_base_minus_exclusion_witness :
  get_cuda_sm_list 95 ∅
    = List.filter (fun sm => bool_decide (sm ∉ spec_exclusion 95)) spec_base_list
  /\ get_cuda_sm_list 110 ∅ = ["52"; "60"; "61"; "70"; "75"; "80"].
Proof.
  apply (sm_list_is_base_minus_exclusion 95 ∅). reflexivity.
Defined.

(** C3, as stated: the list for version 75 would keep 60, 61 and 70.
    The code removes them, since 75 is below 80 and below 90. *)
Lemma sm_list_75_counterexample :
  (∅ : environ) !! "CUDA_SM_LIST" = None
  /\ get_cuda_sm_list 75 ∅ <> ["30"; "52"; "60"; "61"; "70"].
Proof.
  split; [reflexivity | vm_compute; discriminate].
Qed.

(** C3, amended: for version 75 with the override variable unset, the
    computed sm list is the base list without 80, 86, 75, 70, 60 and 61,
    that is 30, 52. *)
Theorem sm_list_75 (env : environ) :
  env !! "CUDA_SM_LIST" = None ->
  get_cuda_sm_list 75 env = ["30"; "52"]
  /\ get_cuda_sm_list 75 env
     = List.filter
         (fun sm => bool_decide
                      (sm ∉ ({["80"; "86"; "75"; "70"; "60"; "61"]} : gset string)))
         spec_base_list.
Proof.
  intros Henv. unfold get_cuda_sm_list. rewrite Henv.
  split; vm_compute; reflexivity.
Qed.

Lemma sm_list_75_witness :
  get_cuda_sm_list 75 ∅ = ["30"; "52"]
  /\ get_cuda_sm_list 75 ∅
     = List.filter
         (fun sm => bool_decide
                      (sm ∉ ({["80"; "86"; "75"; "70"; "60"; "61"]} : gset string)))
         spec_base_list.
Proof.
  apply (sm_list_75 ∅). reflexivity.
Defined.

(** ** ToolchainLocator *)

Lemma validate_first_missing (h : Host) (items : list (string * string))
    (log : list event) :
  validate h items log =
    match first_missing h items with
    | None => (log, Return true)
    | Some (k, val) => ((log ++ [warn_path_missing k val])%list, Return false)
    end.
Proof.
  induction items as [| [k val] rest IH]; simpl.
  - reflexivity.
  - destruct (path_exists h val); simpl.
    + exact IH.
    + reflexivity.
Qed.

Lemma discover_home_found (h : Host) (log log' : list event)
    (found : string * string) :
  discover_home h log = (log', Return (Some found)) -> log' = log.
Proof.
  unfold discover_home.
  destruct (home_from_env h _) as [p |].
  - unfold ret. intros H. inversion H. reflexivity.
  - destruct (os_environ h !! "PATH") as [path |].
    + destruct (find_in_path h (nvcc_bin h) path) as [nvcc |].
      * unfold ret. intros H. inversion H. reflexivity.
      * unfold bind, emit, modify, ret. intros H. inversion H.
    + unfold raise. intros H. inversion H.
Qed.

(** A run that finds a home and parses a supported version goes on to
    the validation, and ends there. *)
Lemma locate_cuda_validated (HALF_PRECISION : bool) (h : Host)
    (log : list event) (home nvcc : string) (major minor : Z) :
  discover_home h log = (log, Return (Some (home, nvcc))) ->
  parse_cuda_ver (path_basename (os_path h) (path_realpath h home))
    = Return (major, minor) ->
  70 <= 10 * major + minor ->
  locate_cuda HALF_PRECISION h log =
    let printed :=
      (log ++ [print_cuda_ver major minor]
           ++ [print_post_args (assembled_for h (10 * major + minor))])%list in
    match first_missing h (config_paths h home nvcc) with
    | None =>
        (printed,
         Return (Some (config_for HALF_PRECISION h home nvcc (10 * major + minor))))
    | Some (k, val) =>
        ((printed ++ [warn_path_missing k val])%list, Return None)
    end.
Proof.
  intros Hd Hp Hv.
  unfold locate_cuda, bind at 1. rewrite Hd.
  unfold bind at 1, lift. rewrite Hp.
  rewrite Z.geb_leb, (proj2 (Z.leb_le 70 _)) by exact Hv.
  cbv [negb]. unfold bind, emit, modify.
  rewrite validate_first_missing. cbv zeta.
  rewrite <- !app_assoc.
  destruct (first_missing h (config_paths h home nvcc)) as [[k val] |];
    reflexivity.
Qed.

(** Every run that returns a dict went through all the stages. *)
Lemma locate_cuda_returns (HALF_PRECISION : bool) (h : Host)
    (log log' : list event) (cfg : cudaconfig) :
  locate_cuda HALF_PRECISION h log = (log', Return (Some cfg)) ->
  exists home nvcc major minor,
    discover_home h log = (log, Return (Some (home, nvcc)))
    /\ parse_cuda_ver (path_basename (os_path h) (path_realpath h home))
       = Return (major, minor)
    /\ 70 <= 10 * major + minor
    /\ first_missing h (config_paths h home nvcc) = None
    /\ log' = (log ++ [print_cuda_ver major minor]
                   ++ [print_post_args (assembled_for h (10 * major + minor))])%list
    /\ cfg = config_for HALF_PRECISION h home nvcc (10 * major + minor).
Proof.
  intros Hrun.
  destruct (discover_home h log) as [log1 [[[home nvcc] |] | e]] eqn:Hd.
  - pose proof (discover_home_found _ _ _ _ Hd) as ->.
    destruct (parse_cuda_ver (path_basename (os_path h) (path_realpath h home)))
      as [[major minor] | e] eqn:Hp.
    + destruct (Z_le_gt_dec 70 (10 * major + minor)) as [Hv | Hv].
      * rewrite (locate_cuda_validated _ _ _ _ _ _ _ Hd Hp Hv) in Hrun.
        cbv zeta in Hrun.
        destruct (first_missing h (config_paths h home nvcc)) as [[k val] |] eqn:Hm.
        -- inversion Hrun.
        -- inversion Hrun; subst.
           exists home, nvcc, major, minor. split_all; reflexivity || assumption.
      * unfold locate_cuda, bind at 1 in Hrun. rewrite Hd in Hrun.
        unfold bind at 1, lift in Hrun. rewrite Hp in Hrun.
        rewrite Z.geb_leb, (proj2 (Z.leb_gt 70 _)) in Hrun by lia.
        cbv [negb raise] in Hrun. inversion Hrun.
    + unfold locate_cuda, bind at 1 in Hrun. rewrite Hd in Hrun.
      unfold bind at 1, lift in Hrun. rewrite Hp in Hrun. inversion Hrun.
  - unfold locate_cuda, bind at 1 in Hrun. rewrite Hd in Hrun.
    unfold ret in Hrun. inversion Hrun.
  - unfold locate_cuda, bind at 1 in Hrun. rewrite Hd in Hrun. inversion Hrun.
Qed.

Lemma config_paths_items (h : Host) (home nvcc : string) :
  config_paths h home nvcc =
    [("home", home); ("nvcc", nvcc);
     ("include", include_dir h home); ("lib64", lib_dir h home)].
Proof.
  unfold config_paths, lib_dir, include_dir.
  destruct (String.eqb (sys_platform h) "win32"); reflexivity.
Qed.




(** C7: in every run that resolves the three flags, the assembled list,
    which the run prints, is the flag [-arch=sm_<arch>], then one flag
    [-gencode=arch=compute_<sm>,code=sm_<sm>] for each entry of the sm
    list in its order, then
    [-gencode=arch=compute_<compute>,code=compute_<compute>], then
    [--ptxas-options=-v] and [-O2]; the [post_args] of a returned dict
    are this list, filtered when the half-precision toggle is on,
    followed by the flags of the platform. *)
Theorem post_args_assembled (HALF_PRECISION : bool) (h : Host)
    (log : list event) (home nvcc : string) (major minor : Z) :
  discover_home h log = (log, Return (Some (home, nvcc))) ->
  parse_cuda_ver (path_basename (os_path h) (path_realpath h home))
    = Return (major, minor) ->
  70 <= 10 * major + minor ->
  let cuda_ver := 10 * major + minor in
  let arch := get_cuda_arch cuda_ver (os_environ h) in
  let sm_list := get_cuda_sm_list cuda_ver (os_environ h) in
  let compute := get_cuda_compute cuda_ver (os_environ h) in
  let assembled :=
    (("-arch=sm_" +:+ arch)
       :: map (fun sm => "-gencode=arch=compute_" +:+ sm +:+ ",code=sm_" +:+ sm)
            sm_list
       ++ ["-gencode=arch=compute_" +:+ compute +:+ ",code=compute_" +:+ compute;
           "--ptxas-options=-v"; "-O2"])%list in
  exists warnings result,
    locate_cuda HALF_PRECISION h log =
      ((log ++ [print_cuda_ver major minor; print_post_args assembled]
            ++ warnings)%list, result)
    /\ (result = Return None
        \/ exists cfg,
            result = Return (Some cfg)
            /\ post_args cfg
               = (drop_52 HALF_PRECISION assembled
                    ++ platform_args HALF_PRECISION h)%list
            /\ (HALF_PRECISION = false ->
                post_args cfg = (assembled ++ platform_args false h)%list)).
Proof.
  intros Hd Hp Hv. cbv zeta.
  rewrite (locate_cuda_validated _ _ _ _ _ _ _ Hd Hp Hv). cbv zeta.
  destruct (first_missing h (config_paths h home nvcc)) as [[k val] |].
  - exists [warn_path_missing k val], (Return None). split.
    + rewrite <- !app_assoc. reflexivity.
    + left. reflexivity.
  - eexists [], _. split.
    + rewrite app_nil_r. reflexivity.
    + right. eexists. split; [reflexivity |]. split.
      * reflexivity.
      * intros ->. reflexivity.
Qed.

Lemma post_args_assembled_witness :
  exists warnings result,
    locate_cuda false host_cuda_112 [] =
      (([] ++ [print_cuda_ver 11 2;
               print_post_args
                 ["-arch=sm_80";
                  "-gencode=arch=compute_52,code=sm_52";
                  "-gencode=arch=compute_60,code=sm_60";
                  "-gencode=arch=compute_61,code=sm_61";
                  "-gencode=arch=compute_70,code=sm_70";
                  "-gencode=arch=compute_75,code=sm_75";
                  "-gencode=arch=compute_80,code=sm_80";
                  "-gencode=arch=compute_86,code=sm_86";
                  "-gencode=arch=compute_86,code=compute_86";
                  "--ptxas-options=-v"; "-O2"]]
           ++ warnings)%list, result).
Proof.
  destruct (post_args_assembled false host_cuda_112 []
              "/usr/local/cuda-11.2" "/usr/local/cuda-11.2/bin/nvcc" 11 2)
    as (warnings & result & Hrun & _).
  - vm_compute; reflexivity.
  - vm_compute; reflexivity.
  - lia.
  - exists warnings, result. exact Hrun.
Defined.

Lemma platform_args_no_52 (HALF_PRECISION : bool) (h : Host) (flag : string) :
  In flag (platform_args HALF_PRECISION h) -> PyStr.contains "52" flag = false.
Proof.
  unfold platform_args.
  destruct (String.eqb (sys_platform h) "win32"), HALF_PRECISION;
    cbn [app In]; intros H;
    repeat (destruct H as [<- | H]; [vm_compute; reflexivity |]);
    destruct H.
Qed.

(** C9: with the half-precision toggle on, the [post_args] of a returned
    dict are the assembled flags that do not contain 52, in their order,
    followed by the flags of the platform: every assembled flag that
    contains 52 is gone, every other assembled flag is kept. *)
Theorem half_precision_removes_52 (h : Host) (log log' : list event)
    (cfg : cudaconfig) :
  locate_cuda true h log = (log', Return (Some cfg)) ->
  exists major minor,
    let assembled := assembled_for h (10 * major + minor) in
    log' = (log ++ [print_cuda_ver major minor; print_post_args assembled])%list
    /\ post_args cfg
       = (List.filter (fun flag => negb (PyStr.contains "52" flag)) assembled
            ++ platform_args true h)%list
    /\ (forall flag, In flag assembled ->
          PyStr.contains "52" flag = true -> ~ In flag (post_args cfg))
    /\ (forall flag, In flag assembled ->
          PyStr.contains "52" flag = false -> In flag (post_args cfg)).
Proof.
  intros Hrun.
  destruct (locate_cuda_returns _ _ _ _ _ Hrun)
    as (home & nvcc & major & minor & _ & _ & _ & _ & Hlog & Hcfg).
  exists major, minor. cbv zeta. subst cfg. cbn [config_for post_args drop_52].
  split_all.
  - exact Hlog.
  - reflexivity.
  - intros flag _ H52 Hin. apply in_app_or in Hin as [Hin | Hin].
    + apply filter_In in Hin as [_ Hin]. rewrite H52 in Hin. discriminate.
    + apply platform_args_no_52 in Hin. congruence.
  - intros flag Hin H52. apply in_or_app. left.
    apply filter_In. rewrite H52. split; [exact Hin | reflexivity].
Qed.

Lemma half_precision_removes_52_witness :
  exists major minor,
    let assembled := assembled_for host_cuda_110 (10 * major + minor) in
    let cfg :=
      config_for true host_cuda_110 "/usr/local/cuda-11.0"
        "/usr/local/cuda-11.0/bin/nvcc" 110 in
    [print_cuda_ver 11 0; print_post_args (assembled_for host_cuda_110 110)]
      = ([] ++ [print_cuda_ver major minor; print_post_args assembled])%list
    /\ post_args cfg
       = (List.filter (fun flag => negb (PyStr.contains "52" flag)) assembled
            ++ platform_args true host_cuda_110)%list
    /\ (forall flag, In flag assembled ->
          PyStr.contains "52" flag = true -> ~ In flag (post_args cfg))
    /\ (forall flag, In flag assembled ->
          PyStr.contains "52" flag = false -> In flag (post_args cfg)).
Proof.
  apply (half_precision_removes_52 host_cuda_110 []).
  vm_compute; reflexivity.
Defined.

(** *** Names without a version *)

Lemma int_digits_no_digit (s : string) (acc : Z) :
  PyStr.has_digit s = false -> PyStr.int_digits s acc false = None.
Proof.
  destruct s as [| c s']; cbn [PyStr.has_digit PyStr.int_digits].
  - reflexivity.
  - intros H. apply orb_false_iff in H as [-> _].
    destruct (Ascii.eqb c "_"); reflexivity.
Qed.

Lemma has_digit_lstrip_space (s : string) :
  PyStr.has_digit s = false -> PyStr.has_digit (PyStr.lstrip_space s) = false.
Proof.
  induction s as [| c s' IH]; cbn [PyStr.lstrip_space]; [reflexivity |].
  intros H. destruct (PyStr.is_space c); [| exact H].
  apply IH. cbn [PyStr.has_digit] in H. apply orb_false_iff in H. tauto.
Qed.

Lemma has_digit_rstrip_space (s : string) :
  PyStr.has_digit s = false -> PyStr.has_digit (PyStr.rstrip_space s) = false.
Proof.
  induction s as [| c s' IH]; cbn [PyStr.rstrip_space]; [reflexivity |].
  intros H. cbn [PyStr.has_digit] in H. apply orb_false_iff in H as [Hc Hs].
  specialize (IH Hs).
  destruct (PyStr.rstrip_space s') as [| c' r].
  - destruct (PyStr.is_space c); cbn [PyStr.has_digit]; [reflexivity |].
    rewrite Hc. reflexivity.
  - cbn [PyStr.has_digit] in *. rewrite Hc. exact IH.
Qed.

Lemma int_no_digit (s : string) :
  PyStr.has_digit s = false -> PyStr.int s = None.
Proof.
  intros H. unfold PyStr.int.
  pose proof (has_digit_rstrip_space _ (has_digit_lstrip_space _ H)) as Ht.
  destruct (PyStr.rstrip_space (PyStr.lstrip_space s)) as [| c d]; [reflexivity |].
  pose proof Ht as Hd. cbn [PyStr.has_digit] in Hd.
  apply orb_false_iff in Hd as [_ Hd].
  rewrite (int_digits_no_digit d 0 Hd), (int_digits_no_digit _ 0 Ht).
  destruct (Ascii.eqb c "-"), (Ascii.eqb c "+"); reflexivity.
Qed.

Lemma split_cons (sep : ascii) (s : string) :
  exists hd tl, PyStr.split sep s = hd :: tl.
Proof.
  destruct s as [| c s']; cbn [PyStr.split]; [eauto |].
  destruct (Ascii.eqb c sep); [eauto |].
  destruct (PyStr.split sep s'); eauto.
Qed.

Lemma split_no_digit (sep : ascii) (s : string) :
  PyStr.has_digit s = false ->
  Forall (fun piece => PyStr.has_digit piece = false) (PyStr.split sep s).
Proof.
  induction s as [| c s' IH]; cbn [PyStr.split]; intros H.
  - constructor; [reflexivity | constructor].
  - cbn [PyStr.has_digit] in H. apply orb_false_iff in H as [Hc Hs].
    specialize (IH Hs).
    destruct (Ascii.eqb c sep).
    + constructor; [reflexivity | exact IH].
    + destruct (PyStr.split sep s') as [| hd tl].
      * constructor; [| constructor]. cbn [PyStr.has_digit]. rewrite Hc. reflexivity.
      * inversion IH; subst. constructor; [| assumption].
        cbn [PyStr.has_digit]. rewrite Hc. assumption.
Qed.

Lemma parse_cuda_ver_no_digit (name : string) :
  PyStr.has_digit name = false -> parse_cuda_ver name = Raise ValueError.
Proof.
  intros H. unfold parse_cuda_ver.
  assert (Hver : Forall (fun piece => PyStr.has_digit piece = false)
            match nth_error (PyStr.split "-" name) 1 with
            | Some seg => PyStr.split "." seg
            | None => PyStr.split "." name
            end).
  { destruct (nth_error (PyStr.split "-" name) 1) as [seg |] eqn:Hseg.
    - apply split_no_digit.
      apply nth_error_In in Hseg.
      pose proof (split_no_digit "-" name H) as Hall.
      rewrite List.Forall_forall in Hall. exact (Hall _ Hseg).
    - apply split_no_digit. exact H. }
  assert (Hne : exists hd tl,
            match nth_error (PyStr.split "-" name) 1 with
            | Some seg => PyStr.split "." seg
            | None => PyStr.split "." name
            end = hd :: tl).
  { destruct (nth_error (PyStr.split "-" name) 1); apply split_cons. }
  destruct Hne as (hd & tl & Heq). rewrite Heq in *.
  inversion Hver; subst. cbn [nth_error].
  rewrite int_no_digit by assumption. reflexivity.
Qed.

(** C10: the parsing of the version is partial. When the real base name
    of a discovered home makes the parsing raise, [locate_cuda] raises
    the same exception, without a warning and without returning [None];
    a name without a digit makes it raise [ValueError], from the
    conversion to an integer. *)
Theorem locate_cuda_version_parsing_raises (HALF_PRECISION : bool) (h : Host)
    (log : list event) (home nvcc : string) :
  discover_home h log = (log, Return (Some (home, nvcc))) ->
  let name := path_basename (os_path h) (path_realpath h home) in
  (forall e, parse_cuda_ver name = Raise e ->
     locate_cuda HALF_PRECISION h log = (log, Raise e))
  /\ (PyStr.has_digit name = false ->
      locate_cuda HALF_PRECISION h log = (log, Raise ValueError)).
Proof.
  intros Hd name.
  assert (Hraise : forall e, parse_cuda_ver name = Raise e ->
            locate_cuda HALF_PRECISION h log = (log, Raise e)).
  { intros e Hp. unfold locate_cuda, bind at 1. rewrite Hd.
    unfold bind at 1, lift. fold name. rewrite Hp. reflexivity. }
  split; [exact Hraise |].
  intros Hnd. apply Hraise. apply parse_cuda_ver_no_digit. exact Hnd.
Qed.

Lemma locate_cuda_version_parsing_raises_witness :
  locate_cuda false host_cuda_unversioned [] = ([], Raise ValueError)
  /\ locate_cuda false host_cuda_major_only [] = ([], Raise IndexError).
Proof.
  split.
  - apply (locate_cuda_version_parsing_raises false host_cuda_unversioned []
             "/usr/local/cuda" "/usr/local/cuda/bin/nvcc").
    + vm_compute; reflexivity.
    + vm_compute; reflexivity.
  - apply (locate_cuda_version_parsing_raises false host_cuda_major_only []
             "/usr/local/cuda-11" "/usr/local/cuda-11/bin/nvcc").
    + vm_compute; reflexivity.
    + vm_compute; reflexivity.
Defined.

(** ** CompilerDispatcher *)

Section Dispatch.

Context {A : Type}.
Variable CUDA : option cudaconfig.
Variable h : Host.
Variable split_quoted : string -> outcome (list string).
Variable super_compile :
  string -> string -> string -> list string -> list string -> list string ->
  M (compiler A) unit.

(** C4: a source whose extension is not [.cu] goes to the compile step
    of the host compiler with every argument as it came; a [.cu] source
    goes to that compile step with the command of the object set from
    the configured nvcc path and with the configured [post_args] in
    place of [extra_postargs], the other arguments as they came. *)
Theorem compile_dispatch (obj src ext : string)
    (cc_args extra_postargs pp_opts : list string) (self : compiler A) :
  (snd (path_splitext (os_path h) src) <> ".cu" ->
     _UnixCCompiler._compile CUDA h split_quoted super_compile
       obj src ext cc_args extra_postargs pp_opts self
     = super_compile obj src ext cc_args extra_postargs pp_opts self)
  /\ (snd (path_splitext (os_path h) src) = ".cu" ->
      forall cfg nvcc cmd,
        CUDA = Some cfg ->
        dict_get "nvcc" (paths cfg) = Some nvcc ->
        split_quoted nvcc = Return cmd ->
        _UnixCCompiler._compile CUDA h split_quoted super_compile
       obj src ext cc_args extra_postargs pp_opts self
        = let '(self', r) :=
            super_compile obj src ext cc_args (post_args cfg) pp_opts
              (set_compiler_so cmd self) in
          (set_compiler_so (compiler_so self) self', r)).
Proof.
  unfold _UnixCCompiler._compile. split.
  - intros Hext. apply String.eqb_neq in Hext. rewrite Hext. reflexivity.
  - intros Hext cfg nvcc cmd -> Hnvcc Hcmd.
    apply String.eqb_eq in Hext. rewrite Hext. cbn [negb].
    unfold try_finally, bind, lift, CUDA_nvcc, CUDA_post_args,
      _UnixCCompiler.set_executable_compiler_so.
    rewrite Hnvcc, Hcmd. reflexivity.
Qed.

(** C5: after the dispatch of a [.cu] source, [compiler_so] is what it
    was before, whether the dispatch returns or raises. *)
Theorem compile_restores_compiler_so (obj src ext : string)
    (cc_args extra_postargs pp_opts : list string)
    (self self' : compiler A) (result : outcome unit) :
  snd (path_splitext (os_path h) src) = ".cu" ->
  _UnixCCompiler._compile CUDA h split_quoted super_compile
    obj src ext cc_args extra_postargs pp_opts self = (self', result) ->
  compiler_so self' = compiler_so self.
Proof.
  unfold _UnixCCompiler._compile.
  intros Hext. apply String.eqb_eq in Hext. rewrite Hext. cbn [negb].
  unfold try_finally.
  destruct (bind _ _ self) as [self1 r]. intros Hrun.
  inversion Hrun. reflexivity.
Qed.

End Dispatch.

Lemma compile_dispatch_witness :
  let gcc := {| compiler_so := ["gcc"]; attrs := [] |} in
  _UnixCCompiler._compile (Some cuda_112) host_cuda_112 one_word spawn_compile
    "k.o" "k.c" ".c" ["-I."] ["-O3"] [] gcc
  = ({| compiler_so := ["gcc"];
        attrs := [["gcc"; "-I."; "k.c"; "-o"; "k.o"; "-O3"]] |}, Return tt)
  /\ _UnixCCompiler._compile (Some cuda_112) host_cuda_112 one_word spawn_compile
       "k.o" "k.cu" ".cu" ["-I."] ["-O3"] [] gcc
     = ({| compiler_so := ["gcc"];
           attrs := [["/usr/local/cuda-11.2/bin/nvcc"; "-I."; "k.cu"; "-o"; "k.o";
                      "-arch=sm_80"; "-O2"; "-c"]] |}, Return tt).
Proof.
  intros gcc. split.
  - rewrite (proj1 (compile_dispatch (Some cuda_112) host_cuda_112 one_word
                      spawn_compile "k.o" "k.c" ".c" ["-I."] ["-O3"] [] gcc)).
    + reflexivity.
    + vm_compute; discriminate.
  - rewrite (proj2 (compile_dispatch (Some cuda_112) host_cuda_112 one_word
                      spawn_compile "k.o" "k.cu" ".cu" ["-I."] ["-O3"] [] gcc)
               eq_refl cuda_112 "/usr/local/cuda-11.2/bin/nvcc"
               ["/usr/local/cuda-11.2/bin/nvcc"] eq_refl eq_refl eq_refl).
    reflexivity.
Defined.

Lemma compile_restores_compiler_so_witness :
  let gcc := {| compiler_so := ["gcc"]; attrs := [] |} in
  compiler_so
    (fst (_UnixCCompiler._compile (Some cuda_112) host_cuda_112 one_word
            failing_compile "k.o" "k.cu" ".cu" ["-I."] ["-O3"] [] gcc))
  = ["gcc"]
  /\ snd (_UnixCCompiler._compile (Some cuda_112) host_cuda_112 one_word
            failing_compile "k.o" "k.cu" ".cu" ["-I."] ["-O3"] [] gcc)
     = Raise (OtherError "CompileError").
Proof.
  intros gcc. split.
  - apply (compile_restores_compiler_so (Some cuda_112) host_cuda_112 one_word
             failing_compile "k.o" "k.cu" ".cu" ["-I."] ["-O3"] [] gcc _
             (Raise (OtherError "CompileError"))).
    + vm_compute; reflexivity.
    + vm_compute; reflexivity.
  - vm_compute; reflexivity.
Defined.

(** On a platform other than [win32] the hook builds the Unix variant. *)
Lemma new_compiler_unix {V C : Type} (cfg : cudaconfig) (sys_platform : string)
    (self : CudaBuildExt.build) (kwargs : gmap string V) (dry_run force : V) :
  sys_platform <> "win32" ->
  kwargs !! "dry_run" = Some dry_run ->
  kwargs !! "force" = Some force ->
  CudaBuildExt.new_compiler (C := C) sys_platform
    (CudaBuildExt.run (Some cfg) self) (Raise DistutilsPlatformError) kwargs
  = Return (CudaBuildExt.constructed CudaBuildExt.UnixCCompiler_cu dry_run force).
Proof.
  intros Hp Hd Hf. apply String.eqb_neq in Hp.
  unfold CudaBuildExt.new_compiler, CudaBuildExt.run. cbn [CudaBuildExt.hooked].
  unfold CudaBuildExt._wrap_new_compiler, CudaBuildExt.kwarg.
  rewrite Hp, Hd, Hf. reflexivity.
Qed.

(** C8, on the code: on [win32], with a configuration found and the hook
    installed by [run], the selection of a compiler raises [NameError]:
    the module binds no [_MSVCCompiler]. *)
Theorem new_compiler_win32_raises {V C : Type} (cfg : cudaconfig)
    (self : CudaBuildExt.build) (kwargs : gmap string V) :
  CudaBuildExt.new_compiler (C := C) "win32"
    (CudaBuildExt.run (Some cfg) self) (Raise DistutilsPlatformError) kwargs
  = Raise (NameError "_MSVCCompiler").
Proof.
  reflexivity.
Qed.

(** * Further properties *)

(** ** The overrides of the resolver *)

(** X1: a set override variable is the value of its field for every
    version: [CUDA_ARCH] and [CUDA_COMPUTE] as they are, [CUDA_SM_LIST]
    split at its commas, without any filtering. *)
Theorem override_wins (cuda_ver : Z) (env : environ) (v : string) :
  (env !! "CUDA_ARCH" = Some v -> get_cuda_arch cuda_ver env = v)
  /\ (env !! "CUDA_COMPUTE" = Some v -> get_cuda_compute cuda_ver env = v)
  /\ (env !! "CUDA_SM_LIST" = Some v ->
      get_cuda_sm_list cuda_ver env = PyStr.split "," v).
Proof.
  unfold get_cuda_arch, get_cuda_compute, get_cuda_sm_list.
  split_all; intros ->; reflexivity.
Qed.

Lemma override_wins_witness :
  get_cuda_arch 75 {["CUDA_ARCH" := "61"]} = "61"
  /\ get_cuda_compute 200 {["CUDA_COMPUTE" := "61"]} = "61"
  /\ get_cuda_sm_list 110 {["CUDA_SM_LIST" := "30,86"]} = ["30"; "86"].
Proof.
  split_all.
  - apply (override_wins 75 {["CUDA_ARCH" := "61"]} "61"). reflexivity.
  - apply (override_wins 200 {["CUDA_COMPUTE" := "61"]} "61"). reflexivity.
  - change ["30"; "86"] with (PyStr.split "," "30,86").
    apply (override_wins 110 {["CUDA_SM_LIST" := "30,86"]} "30,86").
    reflexivity.
Defined.

(** X2: each field reads its own variable only: setting or changing
    any other variable of the environment leaves the field as it was. *)
Theorem override_independent (cuda_ver : Z) (env : environ) (name v : string) :
  (name <> "CUDA_ARCH" ->
     get_cuda_arch cuda_ver (<[name := v]> env) = get_cuda_arch cuda_ver env)
  /\ (name <> "CUDA_COMPUTE" ->
     get_cuda_compute cuda_ver (<[name := v]> env)
     = get_cuda_compute cuda_ver env)
  /\ (name <> "CUDA_SM_LIST" ->
     get_cuda_sm_list cuda_ver (<[name := v]> env)
     = get_cuda_sm_list cuda_ver env).
Proof.
  unfold get_cuda_arch, get_cuda_compute, get_cuda_sm_list.
  split_all; intros Hne; rewrite lookup_insert_ne by exact Hne; reflexivity.
Qed.

Lemma override_independent_witness :
  get_cuda_arch 112 (<["CUDA_COMPUTE" := "61"]> ∅) = get_cuda_arch 112 ∅
  /\ get_cuda_compute 112 (<["CUDA_SM_LIST" := "61"]> ∅) = get_cuda_compute 112 ∅
  /\ get_cuda_sm_list 112 (<["CUDA_ARCH" := "61"]> ∅) = get_cuda_sm_list 112 ∅.
Proof.
  split_all.
  - apply (override_independent 112 ∅ "CUDA_COMPUTE" "61"). discriminate.
  - apply (override_independent 112 ∅ "CUDA_SM_LIST" "61"). discriminate.
  - apply (override_independent 112 ∅ "CUDA_ARCH" "61"). discriminate.
Defined.

(** X3: without an override, the computed sm list is never empty: for
    every version it keeps 52, it is a subsequence of the base list, and
    it grows with the version below 110. *)
Theorem sm_list_invariants (cuda_ver : Z) (env : environ) :
  env !! "CUDA_SM_LIST" = None ->
  In "52" (get_cuda_sm_list cuda_ver env)
  /\ sublist (get_cuda_sm_list cuda_ver env) spec_base_list
  /\ (forall older, older <= cuda_ver -> cuda_ver < 110 ->
        incl (get_cuda_sm_list older env) (get_cuda_sm_list cuda_ver env)).
Proof.
  intros Henv.
  assert (Hcases : forall v,
            get_cuda_sm_list v env = ["52"; "60"; "61"; "70"; "75"; "80"; "86"]
            /\ 111 <= v
            \/ get_cuda_sm_list v env = ["52"; "60"; "61"; "70"; "75"; "80"]
               /\ v = 110
            \/ get_cuda_sm_list v env = ["30"; "52"; "60"; "61"; "70"; "75"]
               /\ 100 <= v < 110
            \/ get_cuda_sm_list v env = ["30"; "52"; "60"; "61"; "70"]
               /\ 90 <= v < 100
            \/ get_cuda_sm_list v env = ["30"; "52"; "60"; "61"] /\ 80 <= v < 90
            \/ get_cuda_sm_list v env = ["30"; "52"] /\ v < 80).
  { intros v.
    destruct (get_cuda_sm_list_ranges v env Henv)
      as (H111 & H110 & H100 & H90 & H80 & H70).
    destruct (Z_lt_le_dec v 80); [do 5 right; split; [apply H70 |]; lia |].
    destruct (Z_lt_le_dec v 90); [do 4 right; left; split; [apply H80 |]; lia |].
    destruct (Z_lt_le_dec v 100); [do 3 right; left; split; [apply H90 |]; lia |].
    destruct (Z_lt_le_dec v 110); [do 2 right; left; split; [apply H100 |]; lia |].
    destruct (Z.eq_dec v 110); [right; left; split; [apply H110 |]; lia |].
    left; split; [apply H111 |]; lia. }
  split_all.
  - destruct (Hcases cuda_ver) as [[-> _] | [[-> _] | [[-> _] | [[-> _] | [[-> _] | [-> _]]]]]];
      cbn [In]; auto.
  - unfold spec_base_list.
    destruct (Hcases cuda_ver) as [[-> _] | [[-> _] | [[-> _] | [[-> _] | [[-> _] | [-> _]]]]]];
      repeat first [ apply sublist_nil | apply sublist_skip | apply sublist_cons ].
  - intros older Hle Hlt.
    destruct (Hcases cuda_ver) as [[-> ?] | [[-> ?] | [[-> ?] | [[-> ?] | [[-> ?] | [-> ?]]]]]];
      destruct (Hcases older) as [[-> ?] | [[-> ?] | [[-> ?] | [[-> ?] | [[-> ?] | [-> ?]]]]]];
      try lia; intros x Hx; cbn [In] in *; tauto.
Qed.

Lemma sm_list_invariants_witness :
  In "52" (get_cuda_sm_list 75 ∅)
  /\ sublist (get_cuda_sm_list 75 ∅) spec_base_list
  /\ (forall older, older <= 75 -> 75 < 110 ->
        incl (get_cuda_sm_list older ∅) (get_cuda_sm_list 75 ∅)).
Proof.
  apply (sm_list_invariants 75 ∅). reflexivity.
Defined.

(** ** The search for the nvcc binary *)

Lemma find_in_path_loop_some (h : Host) (name : string) (dirs : list string)
    (p : string) :
  find_in_path_loop h name dirs = Some p ->
  exists before dir after,
    dirs = (before ++ dir :: after)%list
    /\ (forall d, In d before ->
          path_exists h (path_join (os_path h) d [name]) = false)
    /\ path_exists h (path_join (os_path h) dir [name]) = true
    /\ p = path_abspath h (path_join (os_path h) dir [name]).
Proof.
  induction dirs as [| d rest IH]; cbn [find_in_path_loop]; [discriminate |].
  destruct (path_exists h (path_join (os_path h) d [name])) eqn:Hex.
  - intros [= <-]. exists [], d, rest. cbn [app In]. split_all; tauto.
  - intros Hrest. destruct (IH Hrest) as (before & dir & after & -> & Hb & Hd & Hp).
    exists (d :: before), dir, after. cbn [app In]. split_all; try assumption.
    + reflexivity.
    + intros d' [<- | Hin]; [exact Hex | exact (Hb _ Hin)].
Qed.

Lemma find_in_path_loop_none (h : Host) (name : string) (dirs : list string) :
  find_in_path_loop h name dirs = None
  <-> forall d, In d dirs ->
        path_exists h (path_join (os_path h) d [name]) = false.
Proof.
  induction dirs as [| d rest IH]; cbn [find_in_path_loop In].
  - split; [intros _ d [] | reflexivity].
  - destruct (path_exists h (path_join (os_path h) d [name])) eqn:Hex.
    + split; [discriminate |]. intros Hall.
      rewrite (Hall d (or_introl eq_refl)) in Hex. discriminate.
    + rewrite IH. split.
      * intros Hall d' [<- | Hin]; [exact Hex | exact (Hall _ Hin)].
      * intros Hall d' Hin. apply Hall. right. exact Hin.
Qed.

(** X4: what [find_in_path] finds is the absolute path of the name
    under the first directory of the search path, in its order, in
    which the name exists. *)
Theorem find_in_path_first (h : Host) (name path p : string) :
  find_in_path h name path = Some p ->
  exists before dir after,
    PyStr.split (pathsep (os_path h)) path = (before ++ dir :: after)%list
    /\ (forall d, In d before ->
          path_exists h (path_join (os_path h) d [name]) = false)
    /\ path_exists h (path_join (os_path h) dir [name]) = true
    /\ p = path_abspath h (path_join (os_path h) dir [name]).
Proof.
  unfold find_in_path. apply find_in_path_loop_some.
Qed.

Lemma find_in_path_first_witness :
  exists before dir after,
    PyStr.split (pathsep (os_path host_cuda_110_no_include))
      "/usr/bin:/opt/cuda-11.0/bin:/opt/cuda-11.0/lib64"
    = (before ++ dir :: after)%list
    /\ (forall d, In d before ->
          path_exists host_cuda_110_no_include
            (path_join (os_path host_cuda_110_no_include) d ["nvcc"]) = false)
    /\ path_exists host_cuda_110_no_include
         (path_join (os_path host_cuda_110_no_include) dir ["nvcc"]) = true
    /\ "/opt/cuda-11.0/bin/nvcc"
       = path_abspath host_cuda_110_no_include
           (path_join (os_path host_cuda_110_no_include) dir ["nvcc"]).
Proof.
  apply (find_in_path_first host_cuda_110_no_include "nvcc"
           "/usr/bin:/opt/cuda-11.0/bin:/opt/cuda-11.0/lib64"
           "/opt/cuda-11.0/bin/nvcc").
  vm_compute; reflexivity.
Defined.

(** X5: [find_in_path] returns [None] exactly when the name exists
    under no directory of the search path. *)
Theorem find_in_path_none (h : Host) (name path : string) :
  find_in_path h name path = None
  <-> forall d, In d (PyStr.split (pathsep (os_path h)) path) ->
        path_exists h (path_join (os_path h) d [name]) = false.
Proof.
  unfold find_in_path. apply find_in_path_loop_none.
Qed.

(** X6: an empty search path is one empty directory name: on a POSIX
    host [find_in_path] then looks for the bare name, relative to the
    current directory. *)
Theorem find_in_path_empty_path (h : Host) (name : string) :
  os_path h = posixpath.os_path ->
  find_in_path h name ""
  = if path_exists h name then Some (path_abspath h name) else None.
Proof.
  intros Hos. unfold find_in_path. rewrite Hos.
  cbn [PyStr.split find_in_path_loop]. rewrite Hos.
  assert (Hjoin : path_join posixpath.os_path "" [name] = name).
  { cbn [path_join posixpath.os_path]. unfold posixpath.join. cbn [fold_left].
    destruct (PyStr.startswith "/" name); reflexivity. }
  rewrite Hjoin. reflexivity.
Qed.

Lemma find_in_path_empty_path_witness :
  find_in_path (posix_host [] ["nvcc"]) "nvcc" ""
  = if path_exists (posix_host [] ["nvcc"]) "nvcc"
    then Some (path_abspath (posix_host [] ["nvcc"]) "nvcc") else None.
Proof.
  apply (find_in_path_empty_path (posix_host [] ["nvcc"]) "nvcc"). reflexivity.
Defined.

(** ** The discovery of the home *)

(** X7: the first variable that is set among [CUDA_PATH], [CUDAHOME]
    and [CUDA_HOME], in this order, is the home, whatever the later
    ones and the search path hold; the nvcc path is [bin/<nvcc>] under
    it, and nothing is looked up in the file system or logged. *)
Theorem discover_home_env_priority (h : Host) (log : list event) (home : string) :
  os_environ h !! "CUDA_PATH" = Some home
  \/ (os_environ h !! "CUDA_PATH" = None
      /\ os_environ h !! "CUDAHOME" = Some home)
  \/ (os_environ h !! "CUDA_PATH" = None
      /\ os_environ h !! "CUDAHOME" = None
      /\ os_environ h !! "CUDA_HOME" = Some home) ->
  discover_home h log
  = (log, Return (Some (home, path_join (os_path h) home ["bin"; nvcc_bin h]))).
Proof.
  unfold discover_home. cbn [home_from_env].
  intros [-> | [[-> ->] | (-> & -> & ->)]]; reflexivity.
Qed.

Lemma discover_home_env_priority_witness :
  discover_home
    (posix_host [("CUDA_HOME", "/opt/a"); ("CUDAHOME", "/opt/b")] []) []
  = ([], Return (Some ("/opt/b", "/opt/b/bin/nvcc"))).
Proof.
  apply (discover_home_env_priority
           (posix_host [("CUDA_HOME", "/opt/a"); ("CUDAHOME", "/opt/b")] [])
           [] "/opt/b").
  right; left. split; vm_compute; reflexivity.
Defined.

(** X8: when none of the three variables is set and [PATH] is not in
    the environment either, [locate_cuda] raises [KeyError] for [PATH];
    it neither warns nor returns [None]. *)
Theorem locate_cuda_no_PATH (HALF_PRECISION : bool) (h : Host)
    (log : list event) :
  os_environ h !! "CUDA_PATH" = None ->
  os_environ h !! "CUDAHOME" = None ->
  os_environ h !! "CUDA_HOME" = None ->
  os_environ h !! "PATH" = None ->
  locate_cuda HALF_PRECISION h log = (log, Raise (KeyError "PATH")).
Proof.
  intros H1 H2 H3 H4.
  unfold locate_cuda, bind, discover_home. cbn [home_from_env].
  rewrite H1, H2, H3, H4. reflexivity.
Qed.

Lemma locate_cuda_no_PATH_witness :
  locate_cuda false (posix_host [] []) [] = ([], Raise (KeyError "PATH")).
Proof.
  apply (locate_cuda_no_PATH false (posix_host [] []) []); reflexivity.
Defined.

(** X9: when none of the three variables is set and no directory of
    [PATH] holds the nvcc binary, [locate_cuda] logs the warning that
    nvcc could not be located, and nothing else, and returns [None]:
    the name of no home is parsed, no version is asserted. *)
Theorem locate_cuda_nvcc_not_found (HALF_PRECISION : bool) (h : Host)
    (log : list event) (path : string) :
  os_environ h !! "CUDA_PATH" = None ->
  os_environ h !! "CUDAHOME" = None ->
  os_environ h !! "CUDA_HOME" = None ->
  os_environ h !! "PATH" = Some path ->
  (forall d, In d (PyStr.split (pathsep (os_path h)) path) ->
     path_exists h (path_join (os_path h) d [nvcc_bin h]) = false) ->
  locate_cuda HALF_PRECISION h log
  = ((log ++ [warn_nvcc_not_found])%list, Return None).
Proof.
  intros H1 H2 H3 H4 Hnone.
  apply find_in_path_loop_none in Hnone. fold (find_in_path h (nvcc_bin h) path) in Hnone.
  unfold locate_cuda, bind at 1, discover_home. cbn [home_from_env].
  rewrite H1, H2, H3, H4, Hnone. reflexivity.
Qed.

Lemma locate_cuda_nvcc_not_found_witness :
  locate_cuda false (posix_host [("PATH", "/usr/bin:/bin")] ["/usr/bin/gcc"]) []
  = (([] ++ [warn_nvcc_not_found])%list, Return None).
Proof.
  apply (locate_cuda_nvcc_not_found false
           (posix_host [("PATH", "/usr/bin:/bin")] ["/usr/bin/gcc"]) []
           "/usr/bin:/bin"); try (vm_compute; reflexivity).
  intros d Hd. cbn in Hd.
  destruct Hd as [<- | [<- | []]]; vm_compute; reflexivity.
Defined.

(** ** POSIX paths *)

Lemma no_char_rfind_succ (c : ascii) (s : string) :
  PyStr.contains (String c EmptyString) s = false -> PyStr.rfind_succ c s = 0%nat.
Proof.
  induction s as [| a s' IH]; cbn [PyStr.contains PyStr.startswith PyStr.rfind_succ];
    [reflexivity |].
  destruct (Ascii.eqb c a) eqn:Hca.
  - destruct s'; discriminate.
  - cbn [orb]. intros H. rewrite (IH H).
    rewrite Ascii.eqb_sym, Hca. reflexivity.
Qed.

Lemma append_nil (s : string) : "" +:+ s = s.
Proof. reflexivity. Qed.

Lemma append_cons (x : ascii) (a b : string) :
  String x a +:+ b = String x (a +:+ b).
Proof. reflexivity. Qed.

Ltac app_step := rewrite ?append_cons, ?append_nil.

Lemma rfind_succ_app (c : ascii) (a b : string) :
  PyStr.contains (String c EmptyString) b = false ->
  PyStr.rfind_succ c (a +:+ String c b) = S (String.length a).
Proof.
  intros Hb. induction a as [| x a' IH]; app_step; cbn [PyStr.rfind_succ String.length].
  - rewrite (no_char_rfind_succ c b Hb), Ascii.eqb_refl. reflexivity.
  - rewrite IH. reflexivity.
Qed.

Lemma rstrip_char_app (c : ascii) (a : string) :
  a <> "" -> PyStr.endswith_char c a = false ->
  PyStr.rstrip_char c (a +:+ String c EmptyString) = a.
Proof.
  induction a as [| x a' IH]; [congruence |]. intros _ Hend.
  app_step; cbn [PyStr.rstrip_char].
  destruct a' as [| y a''].
  - app_step; cbn [PyStr.rstrip_char]. rewrite Ascii.eqb_refl.
    cbn [PyStr.endswith_char] in Hend. rewrite Hend. reflexivity.
  - rewrite IH; [reflexivity | discriminate | exact Hend].
Qed.

Lemma all_char_app (c : ascii) (a b : string) :
  a <> "" -> PyStr.endswith_char c a = false -> PyStr.all_char c (a +:+ b) = false.
Proof.
  induction a as [| x a' IH]; [congruence |]. intros _ Hend.
  app_step; cbn [PyStr.all_char].
  destruct a' as [| y a''].
  - cbn [PyStr.endswith_char] in Hend. rewrite Hend. reflexivity.
  - rewrite IH; [apply andb_false_r | discriminate | exact Hend].
Qed.

Lemma endswith_char_app (c : ascii) (a b : string) :
  b <> "" -> PyStr.endswith_char c (a +:+ b) = PyStr.endswith_char c b.
Proof.
  intros Hb. induction a as [| x a' IH]; [reflexivity |].
  app_step; cbn [PyStr.endswith_char].
  destruct (a' +:+ b) eqn:Hab.
  - destruct a'; [| discriminate]. rewrite append_nil in Hab. congruence.
  - exact IH.
Qed.

Lemma startswith_no_char (c : ascii) (s : string) :
  PyStr.contains (String c EmptyString) s = false ->
  PyStr.startswith (String c EmptyString) s = false.
Proof.
  destruct s; cbn [PyStr.contains]; intros H; apply orb_false_iff in H; tauto.
Qed.

Lemma posix_join_one (d name : string) :
  d <> "" -> PyStr.endswith_char "/" d = false ->
  PyStr.contains "/" name = false ->
  posixpath.join d [name] = d +:+ String "/" name.
Proof.
  intros Hd Hend Hname. unfold posixpath.join. cbn [fold_left].
  rewrite (startswith_no_char _ _ Hname), Hend.
  apply String.eqb_neq in Hd. rewrite Hd. reflexivity.
Qed.

Lemma posix_dirname_basename_of_join (d name : string) :
  d <> "" -> PyStr.endswith_char "/" d = false ->
  PyStr.contains "/" name = false ->
  posixpath.dirname (posixpath.join d [name]) = d
  /\ posixpath.basename (posixpath.join d [name]) = name.
Proof.
  intros Hd Hend Hname. rewrite (posix_join_one d name Hd Hend Hname).
  unfold posixpath.dirname, posixpath.basename.
  rewrite (rfind_succ_app "/" d name Hname).
  assert (Htake : PyStr.take (S (String.length d)) (d +:+ String "/" name)
                  = d +:+ "/").
  { clear. induction d as [| x d' IH]; app_step; cbn [String.length PyStr.take].
    - destruct name; reflexivity.
    - cbn [String.length PyStr.take] in IH. rewrite IH. reflexivity. }
  assert (Hdrop : PyStr.drop (S (String.length d)) (d +:+ String "/" name) = name).
  { clear. induction d as [| x d' IH]; app_step; cbn [String.length PyStr.drop].
    - destruct name; reflexivity.
    - exact IH. }
  rewrite Htake, Hdrop. split; [| reflexivity].
  rewrite (all_char_app "/" d "/" Hd Hend).
  assert (Hne : String.eqb (d +:+ "/") "" = false).
  { apply String.eqb_neq. destruct d; discriminate. }
  rewrite Hne. cbn [negb andb].
  apply rstrip_char_app; assumption.
Qed.

(** ** More on the locator *)

Lemma find_in_path_loop_app (h : Host) (name : string)
    (before after : list string) (dir : string) :
  (forall d, In d before ->
     path_exists h (path_join (os_path h) d [name]) = false) ->
  path_exists h (path_join (os_path h) dir [name]) = true ->
  find_in_path_loop h name (before ++ dir :: after)
  = Some (path_abspath h (path_join (os_path h) dir [name])).
Proof.
  intros Hb Hd. induction before as [| d rest IH]; cbn [app find_in_path_loop].
  - rewrite Hd. reflexivity.
  - rewrite (Hb d (or_introl eq_refl)). apply IH.
    intros d' Hin. apply Hb. right. exact Hin.
Qed.

Lemma append_assoc (a b c : string) : (a +:+ b) +:+ c = a +:+ (b +:+ c).
Proof.
  induction a as [| x a' IH]; app_step; [reflexivity | rewrite IH; reflexivity].
Qed.

Lemma nvcc_bin_no_slash (h : Host) : PyStr.contains "/" (nvcc_bin h) = false.
Proof.
  unfold nvcc_bin. destruct (PyStr.startswith "win" (sys_platform h)); reflexivity.
Qed.

(** X10: on a POSIX host without the three variables, when
    [<home>/bin] is the first directory of [PATH] that holds the nvcc
    binary, the discovery returns this [home] (the parent of the parent
    of the binary) and the path of the binary, and logs nothing. *)
Theorem discover_home_from_PATH (h : Host) (log : list event)
    (home path : string) (before after : list string) :
  os_path h = posixpath.os_path ->
  os_environ h !! "CUDA_PATH" = None ->
  os_environ h !! "CUDAHOME" = None ->
  os_environ h !! "CUDA_HOME" = None ->
  os_environ h !! "PATH" = Some path ->
  PyStr.split ":" path = (before ++ (home +:+ "/bin") :: after)%list ->
  (forall d, In d before ->
     path_exists h (posixpath.join d [nvcc_bin h]) = false) ->
  path_exists h (home +:+ "/bin/" +:+ nvcc_bin h) = true ->
  path_abspath h (home +:+ "/bin/" +:+ nvcc_bin h)
    = home +:+ "/bin/" +:+ nvcc_bin h ->
  home <> "" -> PyStr.endswith_char "/" home = false ->
  discover_home h log
  = (log, Return (Some (home, home +:+ "/bin/" +:+ nvcc_bin h))).
Proof.
  intros Hos H1 H2 H3 H4 Hsplit Hbefore Hex Habs Hne Hend.
  assert (Hbin_ne : home +:+ "/bin" <> "") by (destruct home; discriminate).
  assert (Hbin_end : PyStr.endswith_char "/" (home +:+ "/bin") = false).
  { rewrite endswith_char_app by discriminate. reflexivity. }
  assert (Hjoin : posixpath.join (home +:+ "/bin") [nvcc_bin h]
                  = home +:+ "/bin/" +:+ nvcc_bin h).
  { rewrite (posix_join_one _ _ Hbin_ne Hbin_end (nvcc_bin_no_slash h)).
    rewrite append_assoc. reflexivity. }
  unfold discover_home. cbn [home_from_env]. rewrite H1, H2, H3, H4.
  unfold find_in_path. rewrite Hos. cbn [pathsep posixpath.os_path].
  rewrite Hsplit.
  rewrite (find_in_path_loop_app h (nvcc_bin h) before after (home +:+ "/bin"));
    rewrite ?Hos; cbn [path_join path_dirname posixpath.os_path];
    [| exact Hbefore | rewrite Hjoin; exact Hex].
  rewrite Hjoin, Habs, <- Hjoin.
  rewrite (proj1 (posix_dirname_basename_of_join _ _ Hbin_ne Hbin_end
                    (nvcc_bin_no_slash h))).
  change (home +:+ "/bin") with (home +:+ String "/" "bin").
  rewrite <- (posix_join_one home "bin" Hne Hend eq_refl).
  rewrite (proj1 (posix_dirname_basename_of_join home "bin" Hne Hend eq_refl)).
  reflexivity.
Qed.

Lemma discover_home_from_PATH_witness :
  discover_home host_cuda_110_no_include []
  = ([], Return (Some ("/opt/cuda-11.0",
                       "/opt/cuda-11.0" +:+ "/bin/"
                         +:+ nvcc_bin host_cuda_110_no_include))).
Proof.
  apply (discover_home_from_PATH host_cuda_110_no_include [] "/opt/cuda-11.0"
           "/usr/bin:/opt/cuda-11.0/bin" ["/usr/bin"] []);
    try (vm_compute; reflexivity).
  - intros d [<- | []]. vm_compute; reflexivity.
  - discriminate.
Defined.

(** X11: when the real base name of the home has a hyphen, the segment
    after the first hyphen alone decides: if it has no digit,
    [locate_cuda] raises [ValueError], and the fallback that splits the
    whole name at its dots is not tried. *)
Theorem locate_cuda_hyphen_segment (HALF_PRECISION : bool) (h : Host)
    (log : list event) (home nvcc seg : string) :
  discover_home h log = (log, Return (Some (home, nvcc))) ->
  nth_error
    (PyStr.split "-" (path_basename (os_path h) (path_realpath h home))) 1
    = Some seg ->
  PyStr.has_digit seg = false ->
  locate_cuda HALF_PRECISION h log = (log, Raise ValueError).
Proof.
  intros Hd Hseg Hnd.
  unfold locate_cuda, bind at 1. rewrite Hd.
  unfold bind at 1, lift, parse_cuda_ver. rewrite Hseg.
  destruct (split_cons "." seg) as (hd & tl & Heq).
  pose proof (split_no_digit "." seg Hnd) as Hall.
  rewrite Heq in *. inversion Hall; subst. cbn [nth_error].
  rewrite int_no_digit by assumption. reflexivity.
Qed.

Lemma locate_cuda_hyphen_segment_witness :
  locate_cuda false
    (posix_host [("CUDA_HOME", "/opt/11.2-cuda")] ["/opt/11.2-cuda"]) []
  = ([], Raise ValueError).
Proof.
  apply (locate_cuda_hyphen_segment false
           (posix_host [("CUDA_HOME", "/opt/11.2-cuda")] ["/opt/11.2-cuda"]) []
           "/opt/11.2-cuda" "/opt/11.2-cuda/bin/nvcc" "cuda");
    vm_compute; reflexivity.
Defined.

(** X12: a parsed version below 70 makes [locate_cuda] raise
    [AssertionError] before it prints, resolves or validates anything. *)
Theorem locate_cuda_version_too_low (HALF_PRECISION : bool) (h : Host)
    (log : list event) (home nvcc : string) (major minor : Z) :
  discover_home h log = (log, Return (Some (home, nvcc))) ->
  parse_cuda_ver (path_basename (os_path h) (path_realpath h home))
    = Return (major, minor) ->
  10 * major + minor < 70 ->
  locate_cuda HALF_PRECISION h log = (log, Raise AssertionError).
Proof.
  intros Hd Hp Hv.
  unfold locate_cuda, bind at 1. rewrite Hd.
  unfold bind at 1, lift. rewrite Hp.
  rewrite Z.geb_leb, (proj2 (Z.leb_gt 70 _)) by exact Hv.
  reflexivity.
Qed.

Lemma locate_cuda_version_too_low_witness :
  locate_cuda false
    (posix_host [("CUDA_HOME", "/usr/local/cuda-6.5")]
       ["/usr/local/cuda-6.5"; "/usr/local/cuda-6.5/bin/nvcc";
        "/usr/local/cuda-6.5/include"; "/usr/local/cuda-6.5/lib64"]) []
  = ([], Raise AssertionError).
Proof.
  apply (locate_cuda_version_too_low false
           (posix_host [("CUDA_HOME", "/usr/local/cuda-6.5")]
              ["/usr/local/cuda-6.5"; "/usr/local/cuda-6.5/bin/nvcc";
               "/usr/local/cuda-6.5/include"; "/usr/local/cuda-6.5/lib64"]) []
           "/usr/local/cuda-6.5" "/usr/local/cuda-6.5/bin/nvcc" 6 5);
    [vm_compute; reflexivity | vm_compute; reflexivity | lia].
Defined.

Lemma first_missing_none (h : Host) (items : list (string * string)) :
  first_missing h items = None ->
  forall k val, In (k, val) items -> path_exists h val = true.
Proof.
  unfold first_missing. intros Hnone k val Hin.
  pose proof (find_none _ _ Hnone (k, val) Hin) as H. cbn [snd] in H.
  destruct (path_exists h val); [reflexivity | discriminate].
Qed.

(** X13: a dict that [locate_cuda] returns has the items home, nvcc,
    include and lib64, in this order, and each of the four paths,
    the nvcc binary too, exists; so [CUDA['nvcc']] is there for the
    dispatcher. *)
Theorem locate_cuda_returns_existing_paths (HALF_PRECISION : bool) (h : Host)
    (log log' : list event) (cfg : cudaconfig) :
  locate_cuda HALF_PRECISION h log = (log', Return (Some cfg)) ->
  exists home nvcc,
    paths cfg = [("home", home); ("nvcc", nvcc);
                 ("include", include_dir h home); ("lib64", lib_dir h home)]
    /\ path_exists h home = true
    /\ path_exists h nvcc = true
    /\ path_exists h (include_dir h home) = true
    /\ path_exists h (lib_dir h home) = true
    /\ CUDA_nvcc (Some cfg) = Return nvcc.
Proof.
  intros Hrun.
  destruct (locate_cuda_returns _ _ _ _ _ Hrun)
    as (home & nvcc & major & minor & _ & _ & _ & Hmiss & _ & ->).
  exists home, nvcc. unfold CUDA_nvcc. cbn [config_for paths].
  rewrite config_paths_items in *.
  pose proof (first_missing_none _ _ Hmiss) as Hall.
  split_all; try reflexivity; eapply Hall; cbn [In]; eauto 6.
Qed.

Lemma locate_cuda_returns_existing_paths_witness :
  exists home nvcc,
    paths (config_for false host_cuda_112 "/usr/local/cuda-11.2"
             "/usr/local/cuda-11.2/bin/nvcc" 112)
    = [("home", home); ("nvcc", nvcc);
       ("include", include_dir host_cuda_112 home);
       ("lib64", lib_dir host_cuda_112 home)]
    /\ path_exists host_cuda_112 home = true
    /\ path_exists host_cuda_112 nvcc = true
    /\ path_exists host_cuda_112 (include_dir host_cuda_112 home) = true
    /\ path_exists host_cuda_112 (lib_dir host_cuda_112 home) = true
    /\ CUDA_nvcc
         (Some (config_for false host_cuda_112 "/usr/local/cuda-11.2"
                  "/usr/local/cuda-11.2/bin/nvcc" 112))
       = Return nvcc.
Proof.
  apply (locate_cuda_returns_existing_paths false host_cuda_112 []
           [print_cuda_ver 11 2; print_post_args (assembled_for host_cuda_112 112)]).
  vm_compute; reflexivity.
Defined.

(** ** The half-precision toggle and the architecture flag *)

Lemma filter_no_arch (l : list string) :
  Forall (fun flag => PyStr.startswith "-arch=" flag = false) l ->
  forall keep flag, In flag (List.filter keep l) ->
    PyStr.startswith "-arch=" flag = false.
Proof.
  intros Hall keep flag Hin. apply filter_In in Hin as [Hin _].
  rewrite List.Forall_forall in Hall. exact (Hall _ Hin).
Qed.

Lemma platform_args_no_arch (HALF_PRECISION : bool) (h : Host) (flag : string) :
  In flag (platform_args HALF_PRECISION h) ->
  PyStr.startswith "-arch=" flag = false.
Proof.
  unfold platform_args.
  destruct (String.eqb (sys_platform h) "win32"), HALF_PRECISION;
    cbn [app In]; intros H;
    repeat (destruct H as [<- | H]; [reflexivity |]);
    destruct H.
Qed.

Lemma resolver_tables_arch_110 (cuda_ver : Z) (env : environ) :
  env !! "CUDA_ARCH" = None -> cuda_ver = 110 -> get_cuda_arch cuda_ver env = "52".
Proof.
  intros Henv ->. unfold get_cuda_arch. rewrite Henv. reflexivity.
Qed.

Lemma resolver_tables_arch_values (cuda_ver : Z) (env : environ) :
  env !! "CUDA_ARCH" = None -> cuda_ver <> 110 ->
  get_cuda_arch cuda_ver env = "30" \/ get_cuda_arch cuda_ver env = "50"
  \/ get_cuda_arch cuda_ver env = "80" \/ get_cuda_arch cuda_ver env = "90".
Proof.
  intros Henv Hne. unfold get_cuda_arch. rewrite Henv.
  destruct ((70 <=? cuda_ver) && (cuda_ver <? 92)); [tauto |].
  destruct ((92 <=? cuda_ver) && (cuda_ver <? 110)); [tauto |].
  rewrite (proj2 (Z.eqb_neq cuda_ver 110)) by exact Hne.
  destruct ((111 <=? cuda_ver) && (cuda_ver <? 120)); [tauto |].
  destruct ((120 <=? cuda_ver) && (cuda_ver <=? 128)); tauto.
Qed.

(** X14: with the half-precision toggle on and no architecture
    override, a returned dict for version 110 has no [-arch=] flag at
    all, since its flag names 52; for every other version the first
    flag is [-arch=sm_<arch>]. *)
Theorem half_precision_arch_flag (h : Host) (log log' : list event)
    (cfg : cudaconfig) (home : string) (major minor : Z) :
  os_environ h !! "CUDA_ARCH" = None ->
  locate_cuda true h log = (log', Return (Some cfg)) ->
  dict_get "home" (paths cfg) = Some home ->
  parse_cuda_ver (path_basename (os_path h) (path_realpath h home))
    = Return (major, minor) ->
  (10 * major + minor = 110 ->
     forall flag, In flag (post_args cfg) ->
       PyStr.startswith "-arch=" flag = false)
  /\ (10 * major + minor <> 110 ->
      exists rest,
        post_args cfg
        = (("-arch=sm_" +:+ get_cuda_arch (10 * major + minor) (os_environ h))
             :: rest)%list).
Proof.
  intros Harch Hrun Hhome Hparse.
  destruct (locate_cuda_returns _ _ _ _ _ Hrun)
    as (home' & nvcc & major' & minor' & _ & Hp' & Hv & _ & _ & ->).
  cbn [config_for paths post_args] in *.
  rewrite config_paths_items in Hhome. cbn in Hhome. injection Hhome as <-.
  rewrite Hparse in Hp'. injection Hp' as <- <-.
  unfold assembled_for, assemble_post_args, drop_52.
  set (cuda_ver := 10 * major + minor) in *.
  split.
  - intros H110 flag Hin.
    assert (Ha : get_cuda_arch cuda_ver (os_environ h) = "52").
    { apply (resolver_tables_arch_110 cuda_ver (os_environ h) Harch H110). }
    rewrite Ha in Hin. cbn [app List.filter] in Hin.
    change (PyStr.contains "52" ("-arch=sm_" +:+ "52")) with true in Hin.
    cbn [negb] in Hin.
    apply in_app_or in Hin as [Hin | Hin].
    + revert Hin. apply filter_no_arch.
      apply Forall_app. split.
      * apply List.Forall_forall. intros x Hx. apply in_map_iff in Hx as (sm & <- & _).
        reflexivity.
      * repeat constructor.
    + exact (platform_args_no_arch _ _ _ Hin).
  - intros Hne.
    assert (Ha : PyStr.contains "52"
                   ("-arch=sm_" +:+ get_cuda_arch cuda_ver (os_environ h))
                 = false).
    { destruct (resolver_tables_arch_values cuda_ver (os_environ h) Harch Hne)
        as [-> | [-> | [-> | ->]]]; reflexivity. }
    cbn [app List.filter]. rewrite Ha. cbn [negb app]. eauto.
Qed.

Lemma half_precision_arch_flag_witness :
  (10 * 11 + 0 = 110 ->
     forall flag,
       In flag (post_args (config_for true host_cuda_110 "/usr/local/cuda-11.0"
                             "/usr/local/cuda-11.0/bin/nvcc" 110)) ->
       PyStr.startswith "-arch=" flag = false)
  /\ (10 * 11 + 0 <> 110 ->
      exists rest,
        post_args (config_for true host_cuda_110 "/usr/local/cuda-11.0"
                     "/usr/local/cuda-11.0/bin/nvcc" 110)
        = (("-arch=sm_"
              +:+ get_cuda_arch (10 * 11 + 0) (os_environ host_cuda_110))
             :: rest)%list).
Proof.
  apply (half_precision_arch_flag host_cuda_110 []
           [print_cuda_ver 11 0; print_post_args (assembled_for host_cuda_110 110)]
           _ "/usr/local/cuda-11.0" 11 0);
    vm_compute; reflexivity.
Defined.

(** ** More on the dispatcher *)

Lemma set_compiler_so_same {A : Type} (self : compiler A) :
  set_compiler_so (compiler_so self) self = self.
Proof.
  destruct self. reflexivity.
Qed.

Section DispatchMore.

Context {A : Type}.
Variable CUDA : option cudaconfig.
Variable h : Host.
Variable split_quoted : string -> outcome (list string).
Variable super_compile :
  string -> string -> string -> list string -> list string -> list string ->
  M (compiler A) unit.

(** X15: for a [.cu] source the [extra_postargs] of the caller are not
    used: the dispatch does the same whatever they are. *)
Theorem compile_cu_ignores_extra_postargs (obj src ext : string)
    (cc_args extra_postargs extra_postargs' pp_opts : list string)
    (self : compiler A) :
  snd (path_splitext (os_path h) src) = ".cu" ->
  _UnixCCompiler._compile CUDA h split_quoted super_compile
    obj src ext cc_args extra_postargs pp_opts self
  = _UnixCCompiler._compile CUDA h split_quoted super_compile
      obj src ext cc_args extra_postargs' pp_opts self.
Proof.
  intros Hext. apply String.eqb_eq in Hext.
  unfold _UnixCCompiler._compile. rewrite Hext. reflexivity.
Qed.

(** X16: when the dispatch of a [.cu] source cannot set the command,
    because [CUDA] is [None] or lacks the nvcc item, or because
    [split_quoted] rejects the nvcc path, the exception goes to the
    caller, the compile step is not run and the object is as it was. *)
Theorem compile_cu_fails_before_compiling (obj src ext : string)
    (cc_args extra_postargs pp_opts : list string) (self : compiler A)
    (e : exn) :
  snd (path_splitext (os_path h) src) = ".cu" ->
  CUDA_nvcc CUDA = Raise e
  \/ (exists nvcc, CUDA_nvcc CUDA = Return nvcc /\ split_quoted nvcc = Raise e) ->
  _UnixCCompiler._compile CUDA h split_quoted super_compile
    obj src ext cc_args extra_postargs pp_opts self
  = (self, Raise e).
Proof.
  intros Hext Hfail. apply String.eqb_eq in Hext.
  unfold _UnixCCompiler._compile. rewrite Hext. cbn [negb].
  unfold try_finally, bind, lift.
  destruct Hfail as [Hnvcc | (nvcc & Hnvcc & Hsplit)]; rewrite Hnvcc.
  - rewrite set_compiler_so_same. reflexivity.
  - unfold CUDA_nvcc in Hnvcc. unfold CUDA_post_args.
    destruct CUDA as [cfg |]; [| discriminate].
    unfold _UnixCCompiler.set_executable_compiler_so. rewrite Hsplit.
    rewrite set_compiler_so_same. reflexivity.
Qed.

(** X17: with the dict that a run of [locate_cuda] returned as [CUDA],
    the dispatch of a [.cu] source finds the nvcc item: when
    [split_quoted] accepts the nvcc path, the compile step runs with
    the command made of it and with the [post_args] of the run. *)
Theorem compile_cu_with_located_cuda (HALF_PRECISION : bool) (host : Host)
    (log log' : list event) (cfg : cudaconfig)
    (obj src ext : string) (cc_args extra_postargs pp_opts : list string)
    (self : compiler A) :
  locate_cuda HALF_PRECISION host log = (log', Return (Some cfg)) ->
  CUDA = Some cfg ->
  snd (path_splitext (os_path h) src) = ".cu" ->
  exists nvcc,
    dict_get "nvcc" (paths cfg) = Some nvcc
    /\ path_exists host nvcc = true
    /\ forall cmd, split_quoted nvcc = Return cmd ->
         _UnixCCompiler._compile CUDA h split_quoted super_compile
           obj src ext cc_args extra_postargs pp_opts self
         = let '(self', r) :=
             super_compile obj src ext cc_args (post_args cfg) pp_opts
               (set_compiler_so cmd self) in
           (set_compiler_so (compiler_so self) self', r).
Proof.
  intros Hrun -> Hext. apply String.eqb_eq in Hext.
  destruct (locate_cuda_returns _ _ _ _ _ Hrun)
    as (home & nvcc & major & minor & _ & _ & _ & Hmiss & _ & Hcfg).
  exists nvcc.
  assert (Hnvcc : dict_get "nvcc" (paths cfg) = Some nvcc).
  { rewrite Hcfg. cbn [config_for paths]. rewrite config_paths_items. reflexivity. }
  split_all.
  - exact Hnvcc.
  - rewrite config_paths_items in Hmiss.
    apply (first_missing_none _ _ Hmiss "nvcc"). cbn [In]. auto.
  - intros cmd Hcmd.
    unfold _UnixCCompiler._compile. rewrite Hext. cbn [negb].
    unfold try_finally, bind, lift, CUDA_nvcc, CUDA_post_args,
      _UnixCCompiler.set_executable_compiler_so.
    rewrite Hnvcc, Hcmd. reflexivity.
Qed.

End DispatchMore.

Lemma compile_cu_ignores_extra_postargs_witness :
  let gcc := {| compiler_so := ["gcc"]; attrs := [] |} in
  _UnixCCompiler._compile (Some cuda_112) host_cuda_112 one_word spawn_compile
    "k.o" "k.cu" ".cu" ["-I."] ["-O3"] [] gcc
  = _UnixCCompiler._compile (Some cuda_112) host_cuda_112 one_word spawn_compile
      "k.o" "k.cu" ".cu" ["-I."] ["-g"; "-Wall"] [] gcc.
Proof.
  intros gcc.
  apply (compile_cu_ignores_extra_postargs (Some cuda_112) host_cuda_112 one_word
           spawn_compile "k.o" "k.cu" ".cu" ["-I."] ["-O3"] ["-g"; "-Wall"] [] gcc).
  vm_compute; reflexivity.
Defined.

Lemma compile_cu_fails_before_compiling_witness :
  let gcc := {| compiler_so := ["gcc"]; attrs := [] |} in
  _UnixCCompiler._compile
    (Some {| paths := [("home", "/opt/cuda")]; post_args := [] |})
    host_cuda_112 one_word spawn_compile "k.o" "k.cu" ".cu" ["-I."] ["-O3"] [] gcc
  = (gcc, Raise (KeyError "nvcc"))
  /\ _UnixCCompiler._compile (Some cuda_112) host_cuda_112
       (fun _ => Raise ValueError) spawn_compile
       "k.o" "k.cu" ".cu" ["-I."] ["-O3"] [] gcc
     = (gcc, Raise ValueError).
Proof.
  intros gcc. split.
  - apply (compile_cu_fails_before_compiling
             (Some {| paths := [("home", "/opt/cuda")]; post_args := [] |})
             host_cuda_112 one_word spawn_compile).
    + vm_compute; reflexivity.
    + left. reflexivity.
  - apply (compile_cu_fails_before_compiling (Some cuda_112) host_cuda_112
             (fun _ => Raise ValueError) spawn_compile).
    + vm_compute; reflexivity.
    + right. exists "/usr/local/cuda-11.2/bin/nvcc". split; reflexivity.
Defined.

Lemma compile_cu_with_located_cuda_witness :
  let gcc := {| compiler_so := ["gcc"]; attrs := [] |} in
  let cfg := config_for false host_cuda_112 "/usr/local/cuda-11.2"
               "/usr/local/cuda-11.2/bin/nvcc" 112 in
  exists nvcc,
    dict_get "nvcc" (paths cfg) = Some nvcc
    /\ path_exists host_cuda_112 nvcc = true
    /\ forall cmd, one_word nvcc = Return cmd ->
         _UnixCCompiler._compile (Some cfg) host_cuda_112 one_word spawn_compile
           "k.o" "k.cu" ".cu" ["-I."] ["-O3"] [] gcc
         = let '(self', r) :=
             spawn_compile "k.o" "k.cu" ".cu" ["-I."] (post_args cfg) []
               (set_compiler_so cmd gcc) in
           (set_compiler_so (compiler_so gcc) self', r).
Proof.
  intros gcc cfg.
  apply (compile_cu_with_located_cuda (Some cfg) host_cuda_112 one_word
           spawn_compile false host_cuda_112 []
           [print_cuda_ver 11 2; print_post_args (assembled_for host_cuda_112 112)]
           cfg "k.o" "k.cu" ".cu" ["-I."] ["-O3"] [] gcc).
  - vm_compute; reflexivity.
  - reflexivity.
  - vm_compute; reflexivity.
Defined.

(** ** More on the selection of the compiler *)

(** X18: the hook takes over only for [DistutilsPlatformError]: a
    compiler that the original [new_compiler] returns, and any other
    exception that it raises, pass through unchanged, on every
    platform and with any keyword arguments. *)
Theorem wrap_new_compiler_passes_through {V C : Type} (sys_platform : string)
    (func_result : outcome C) (kwargs : gmap string V) :
  func_result <> Raise DistutilsPlatformError ->
  CudaBuildExt._wrap_new_compiler sys_platform func_result kwargs
  = match func_result with
    | Return c => Return (CudaBuildExt.original c)
    | Raise e => Raise e
    end.
Proof.
  intros Hne. destruct func_result as [c | e]; [reflexivity |].
  destruct e; try reflexivity. congruence.
Qed.

Lemma wrap_new_compiler_passes_through_witness :
  CudaBuildExt._wrap_new_compiler (V := bool) (C := unit) "win32"
    (Raise (OtherError "CompileError")) ∅
  = Raise (OtherError "CompileError").
Proof.
  apply (wrap_new_compiler_passes_through (V := bool) (C := unit) "win32"
           (Raise (OtherError "CompileError")) ∅).
  discriminate.
Defined.

(** X19: on a platform other than [win32], when the original
    [new_compiler] raises [DistutilsPlatformError] and the call did not
    pass [dry_run] or [force] by keyword, the hook raises [KeyError]
    for the first of the two that is missing. *)
Theorem wrap_new_compiler_missing_kwarg {V C : Type} (sys_platform : string)
    (kwargs : gmap string V) :
  sys_platform <> "win32" ->
  (kwargs !! "dry_run" = None ->
     CudaBuildExt._wrap_new_compiler (C := C) sys_platform
       (Raise DistutilsPlatformError) kwargs
     = Raise (KeyError "dry_run"))
  /\ (is_Some (kwargs !! "dry_run") -> kwargs !! "force" = None ->
     CudaBuildExt._wrap_new_compiler (C := C) sys_platform
       (Raise DistutilsPlatformError) kwargs
     = Raise (KeyError "force")).
Proof.
  intros Hp. apply String.eqb_neq in Hp.
  unfold CudaBuildExt._wrap_new_compiler, CudaBuildExt.kwarg. rewrite Hp.
  cbn [negb CudaBuildExt.load_global CudaBuildExt.module_globals].
  split.
  - intros ->. reflexivity.
  - intros [d ->] ->. reflexivity.
Qed.

Lemma wrap_new_compiler_missing_kwarg_witness :
  CudaBuildExt._wrap_new_compiler (V := bool) (C := unit) "linux"
    (Raise DistutilsPlatformError) ∅
  = Raise (KeyError "dry_run")
  /\ CudaBuildExt._wrap_new_compiler (V := bool) (C := unit) "linux"
       (Raise DistutilsPlatformError) {["dry_run" := false]}
     = Raise (KeyError "force").
Proof.
  destruct (wrap_new_compiler_missing_kwarg (V := bool) (C := unit) "linux" ∅)
    as [H1 _]; [discriminate |].
  destruct (wrap_new_compiler_missing_kwarg (V := bool) (C := unit) "linux"
              {["dry_run" := false]}) as [_ H2]; [discriminate |].
  split.
  - apply H1. reflexivity.
  - apply H2; [eexists; reflexivity | reflexivity].
Defined.

(** ** The import of the module *)

(** X20: the import goes through exactly when [locate_cuda] returns a
    dict; [BUILDEXT] is then [CudaBuildExt], never the setuptools
    class. When [locate_cuda] returns [None] the import raises
    [AssertionError]; what [locate_cuda] raises, the import raises. *)
Theorem module_init_outcomes (HALF_PRECISION : bool) (h : Host)
    (log : list event) :
  match locate_cuda HALF_PRECISION h log with
  | (log', Return (Some cfg)) =>
      module_init HALF_PRECISION h log
      = (log', Return (cfg, BUILDEXT_CudaBuildExt))
  | (log', Return None) =>
      module_init HALF_PRECISION h log = (log', Raise AssertionError)
  | (log', Raise e) => module_init HALF_PRECISION h log = (log', Raise e)
  end.
Proof.
  unfold module_init, bind.
  destruct (locate_cuda HALF_PRECISION h log) as [log' [[cfg |] | e]];
    try reflexivity.
  unfold ret, dict_truth. rewrite Nat.add_1_r. reflexivity.
Qed.

(** ** Names that carry a version *)

Lemma append_nil_r (a : string) : a +:+ "" = a.
Proof.
  induction a as [| x a' IH]; app_step; [reflexivity | rewrite IH; reflexivity].
Qed.

Lemma contains_char_app (c : ascii) (x y : string) :
  PyStr.contains (String c EmptyString) (x +:+ y)
  = PyStr.contains (String c EmptyString) x
    || PyStr.contains (String c EmptyString) y.
Proof.
  induction x as [| a x' IH]; app_step.
  - destruct y; reflexivity.
  - cbn [PyStr.contains PyStr.startswith]. rewrite IH.
    destruct (Ascii.eqb c a).
    + destruct (x' +:+ y); destruct x'; reflexivity.
    + reflexivity.
Qed.

Lemma split_app_prefix (sep : ascii) (x y : string) :
  PyStr.contains (String sep EmptyString) x = false ->
  PyStr.split sep (x +:+ y)
  = match PyStr.split sep y with
    | hd :: tl => (x +:+ hd) :: tl
    | [] => [x]
    end.
Proof.
  induction x as [| a x' IH]; intros Hx; app_step.
  - destruct (split_cons sep y) as (hd & tl & ->). reflexivity.
  - cbn [PyStr.contains PyStr.startswith] in Hx.
    destruct (Ascii.eqb sep a) eqn:Hsa.
    + destruct x'; discriminate.
    + cbn [orb] in Hx. cbn [PyStr.split].
      rewrite Ascii.eqb_sym, Hsa, (IH Hx).
      destruct (split_cons sep y) as (hd & tl & ->). reflexivity.
Qed.

Lemma split_sep_head (sep : ascii) (t : string) :
  PyStr.split sep (String sep t) = "" :: PyStr.split sep t.
Proof.
  cbn [PyStr.split]. rewrite Ascii.eqb_refl. reflexivity.
Qed.

Lemma split_at_sep (sep : ascii) (x t : string) :
  PyStr.contains (String sep EmptyString) x = false ->
  PyStr.split sep (x +:+ String sep t) = x :: PyStr.split sep t.
Proof.
  intros Hx. rewrite (split_app_prefix sep x _ Hx), split_sep_head, append_nil_r.
  reflexivity.
Qed.

Lemma suffix_split (rest : string) :
  rest = "" \/ PyStr.startswith "." rest = true
  \/ PyStr.startswith "-" rest = true ->
  exists hd tl tl',
    PyStr.split "-" rest = hd :: tl /\ PyStr.split "." hd = "" :: tl'.
Proof.
  intros [-> | [H | H]].
  - exists "", [], []. split; reflexivity.
  - destruct rest as [| c r]; [discriminate |].
    cbn [PyStr.startswith] in H.
    destruct (Ascii.eqb_spec "." c) as [<- |]; [| discriminate].
    destruct (split_cons "-" r) as (hd & tl & Heq).
    exists (String "." hd), tl, (PyStr.split "." hd).
    split; [| apply split_sep_head].
    change (PyStr.split "-" (String "." r))
      with (match PyStr.split "-" r with
            | hd :: tl => String "." hd :: tl
            | [] => [String "." EmptyString]
            end).
    rewrite Heq. reflexivity.
  - destruct rest as [| c r]; [discriminate |].
    cbn [PyStr.startswith] in H.
    destruct (Ascii.eqb_spec "-" c) as [<- |]; [| discriminate].
    exists "", (PyStr.split "-" r), []. split; [apply split_sep_head | reflexivity].
Qed.

Lemma split_dots_major_minor (a b hd : string) (tl' : list string) :
  PyStr.contains "." a = false -> PyStr.contains "." b = false ->
  PyStr.split "." hd = "" :: tl' ->
  PyStr.split "." ((a +:+ String "." b) +:+ hd) = a :: b :: tl'.
Proof.
  intros Ha Hb Hhd.
  rewrite append_assoc, append_cons, (split_at_sep "." a _ Ha).
  rewrite (split_app_prefix "." b hd Hb), Hhd, append_nil_r. reflexivity.
Qed.

(** X21: a real base name [<prefix>-<major>.<minor>], alone or followed
    by a further dotted component or by a hyphenated suffix, gives the
    two integers: only the first two components after the first hyphen
    count. *)
Theorem parse_cuda_ver_hyphen_name (prefix a b rest : string) (major minor : Z) :
  PyStr.contains "-" prefix = false ->
  PyStr.contains "-" a = false -> PyStr.contains "." a = false ->
  PyStr.contains "-" b = false -> PyStr.contains "." b = false ->
  rest = "" \/ PyStr.startswith "." rest = true
  \/ PyStr.startswith "-" rest = true ->
  PyStr.int a = Some major -> PyStr.int b = Some minor ->
  parse_cuda_ver (prefix +:+ String "-" ((a +:+ String "." b) +:+ rest))
  = Return (major, minor).
Proof.
  intros Hp Ha Ha' Hb Hb' Hrest Hmajor Hminor.
  destruct (suffix_split rest Hrest) as (hd & tl & tl' & Hsplit & Hhd).
  assert (Hab : PyStr.contains "-" (a +:+ String "." b) = false).
  { rewrite contains_char_app, Ha.
    change (String "." b) with ("." +:+ b).
    rewrite contains_char_app, Hb. reflexivity. }
  unfold parse_cuda_ver.
  rewrite (split_at_sep "-" prefix _ Hp).
  rewrite (split_app_prefix "-" _ rest Hab), Hsplit. cbn [nth_error].
  rewrite (split_dots_major_minor a b hd tl' Ha' Hb' Hhd). cbn [nth_error].
  rewrite Hmajor, Hminor. reflexivity.
Qed.

Lemma parse_cuda_ver_hyphen_name_witness :
  parse_cuda_ver ("cuda" +:+ String "-" (("11" +:+ String "." "2") +:+ ".1-rc"))
  = Return (11, 2).
Proof.
  apply (parse_cuda_ver_hyphen_name "cuda" "11" "2" ".1-rc" 11 2);
    try reflexivity.
  right; left. reflexivity.
Defined.

(** X22: a real base name without a hyphen goes to the fallback: the
    name [<major>.<minor>], alone or followed by a further dotted
    component, gives the two integers. *)
Theorem parse_cuda_ver_plain_name (a b rest : string) (major minor : Z) :
  PyStr.contains "-" a = false -> PyStr.contains "." a = false ->
  PyStr.contains "-" b = false -> PyStr.contains "." b = false ->
  PyStr.contains "-" rest = false ->
  rest = "" \/ PyStr.startswith "." rest = true ->
  PyStr.int a = Some major -> PyStr.int b = Some minor ->
  parse_cuda_ver ((a +:+ String "." b) +:+ rest) = Return (major, minor).
Proof.
  intros Ha Ha' Hb Hb' Hr Hrest Hmajor Hminor.
  assert (Hname : PyStr.contains "-" ((a +:+ String "." b) +:+ rest) = false).
  { rewrite !contains_char_app, Ha, Hr.
    change (String "." b) with ("." +:+ b).
    rewrite contains_char_app, Hb. reflexivity. }
  assert (Hnohyphen : PyStr.split "-" ((a +:+ String "." b) +:+ rest)
                      = [(a +:+ String "." b) +:+ rest]).
  { rewrite <- (append_nil_r ((a +:+ String "." b) +:+ rest)) at 1.
    rewrite (split_app_prefix "-" _ "" Hname). cbn [PyStr.split].
    rewrite append_nil_r. reflexivity. }
  assert (Hhd : exists tl', PyStr.split "." rest = "" :: tl'
                            \/ rest = "" /\ tl' = []).
  { destruct Hrest as [-> | H]; [exists []; left; reflexivity |].
    destruct rest as [| c r]; [discriminate |]. cbn [PyStr.startswith] in H.
    destruct (Ascii.eqb_spec "." c) as [<- |]; [| discriminate].
    exists (PyStr.split "." r). left. apply split_sep_head. }
  destruct Hhd as (tl' & [Hhd | [-> ->]]).
  - unfold parse_cuda_ver. rewrite Hnohyphen. cbn [nth_error].
    rewrite (split_dots_major_minor a b rest tl' Ha' Hb' Hhd). cbn [nth_error].
    rewrite Hmajor, Hminor. reflexivity.
  - unfold parse_cuda_ver. rewrite Hnohyphen. cbn [nth_error].
    rewrite (split_dots_major_minor a b "" [] Ha' Hb' eq_refl). cbn [nth_error].
    rewrite Hmajor, Hminor. reflexivity.
Qed.

Lemma parse_cuda_ver_plain_name_witness :
  parse_cuda_ver (("12" +:+ String "." "4") +:+ "") = Return (12, 4).
Proof.
  apply (parse_cuda_ver_plain_name "12" "4" "" 12 4); try reflexivity.
  left. reflexivity.
Defined.

(** ** A complete installation *)

(** X23: when a home is found, its name gives a version of at least 70
    and the home, the nvcc binary, the include directory and the lib
    directory all exist, [locate_cuda] prints the version and the
    assembled flags, logs no warning and returns the dict with the four
    path items and, with the half-precision toggle off, the assembled
    flags followed by the flags of the platform. *)
Theorem locate_cuda_complete_installation (h : Host) (log : list event)
    (home nvcc : string) (major minor : Z) :
  discover_home h log = (log, Return (Some (home, nvcc))) ->
  parse_cuda_ver (path_basename (os_path h) (path_realpath h home))
    = Return (major, minor) ->
  70 <= 10 * major + minor ->
  path_exists h home = true ->
  path_exists h nvcc = true ->
  path_exists h (include_dir h home) = true ->
  path_exists h (lib_dir h home) = true ->
  locate_cuda false h log
  = ((log ++ [print_cuda_ver major minor;
              print_post_args (assembled_for h (10 * major + minor))])%list,
     Return (Some {| paths := [("home", home); ("nvcc", nvcc);
                               ("include", include_dir h home);
                               ("lib64", lib_dir h home)];
                     post_args := (assembled_for h (10 * major + minor)
                                     ++ platform_args false h)%list |})).
Proof.
  intros Hd Hp Hv Hh Hn Hi Hl.
  rewrite (locate_cuda_validated _ _ _ _ _ _ _ Hd Hp Hv). cbv zeta.
  unfold config_for. rewrite config_paths_items.
  unfold first_missing. cbn [find snd]. rewrite Hh, Hn, Hi, Hl. cbn [negb].
  reflexivity.
Qed.

Lemma locate_cuda_complete_installation_witness :
  locate_cuda false host_cuda_112 []
  = (([] ++ [print_cuda_ver 11 2;
             print_post_args (assembled_for host_cuda_112 (10 * 11 + 2))])%list,
     Return (Some {| paths := [("home", "/usr/local/cuda-11.2");
                               ("nvcc", "/usr/local/cuda-11.2/bin/nvcc");
                               ("include",
                                include_dir host_cuda_112 "/usr/local/cuda-11.2");
                               ("lib64",
                                lib_dir host_cuda_112 "/usr/local/cuda-11.2")];
                     post_args := (assembled_for host_cuda_112 (10 * 11 + 2)
                                     ++ platform_args false host_cuda_112)%list |})).
Proof.
  apply (locate_cuda_complete_installation host_cuda_112 []
           "/usr/local/cuda-11.2" "/usr/local/cuda-11.2/bin/nvcc" 11 2);
    try (vm_compute; reflexivity).
  lia.
Defined.
